(** * Iterative short-horizon load forecasting: [predictor.py]

    A shallow embedding of [ML_models/Load_prediction/predictor.py]
    ([get_confidence_level], [predict_next_hour_enhanced],
    [predict_next_6_hours]) and the properties its specification states.

    Conventions of the embedding.
    - Python numbers that may be fractional (the model's output, interval
      widths, mean absolute errors, feature values) are exact rationals [Q];
      integer counts are [Z].  The idealisation is that arithmetic on them is
      exact.
    - The ['count'] column is an [int64] column.  The one subtraction of two
      counts, [lag_1 - lag_3], is written on [Z]: it is the code's value
      whenever the difference is an [int64] ([int64] below), and a statement
      that reads the sign of the difference assumes so.
    - [round(x)] is Python 3's built-in: nearest integer, ties to the even
      neighbour ([py_round]).
    - A pandas [Timestamp] is its number of nanoseconds since 1970-01-01
      00:00 (a Thursday), unbounded and timezone-naive.
    - A [DataFrame] with columns ['timestamp'] and ['count'] is the list of
      its rows, first row first.
    - A raised exception is a value of [exn], named after the Python
      exception and the place that raises it.
    - The trained regressor is opaque and total: [model.predict] is a
      function from the ordered feature values to a number.
    - pandas sorts with an algorithm that is not stable: the order it gives
      to rows with equal timestamps is not fixed by the program.  [sort_values]
      is the ascending order when the timestamps are pairwise distinct, the
      only order there is ([sort_values_unique]); of rows with equal
      timestamps it is one of the possible orders, and a statement that
      depends on which one assumes distinct timestamps. *)

From stdpp Require Import gmap strings list sorting.
From Stdlib Require Import ZArith QArith Qround Lqa Lia Permutation Sorted.

Local Open Scope Z_scope.

(** ** Numbers *)

Definition Qltb (x y : Q) : bool :=
  match (x ?= y)%Q with Lt => true | _ => false end.

Definition Qleb (x y : Q) : bool := negb (Qltb y x).

(** [round(x)] with one argument: the nearest integer, a tie going to the
    even one. *)
Definition py_round (x : Q) : Z :=
  let f := Qfloor x in
  match ((x - inject_Z f) ?= (1 # 2))%Q with
  | Lt => f
  | Gt => f + 1
  | Eq => if Z.even f then f else f + 1
  end.

(** [round(x, 2)]. *)
Definition py_round2 (x : Q) : Q := (inject_Z (py_round (x * 100)) / 100)%Q.

(** [max(0, x)] on a number: Python returns the second argument only when it
    is strictly greater than the first. *)
Definition py_max0 (x : Q) : Q := if Qltb 0 x then x else 0%Q.

(** [int(b)] for a Python [bool]. *)
Definition int_of_bool (b : bool) : Z := if b then 1 else 0.

(** ** The confidence classifier *)

(** [model_data['contexts']]: three dictionaries of mean absolute errors. *)
Record Contexts := {
  ctx_hour : gmap Z Q;            (* contexts['hour'] *)
  ctx_load_level : gmap string Q; (* contexts['load_level'] *)
  ctx_day_of_week : gmap Z Q      (* contexts['day_of_week'] *)
}.

Definition get_confidence_level (hour load_level day_of_week : Z)
    (contexts : Contexts) (base_mae : Q) : string * Q :=
  let hour_mae := default base_mae (ctx_hour contexts !! hour) in
  let load_cat :=
    if load_level <=? 3 then "low"
    else if load_level <=? 6 then "medium"
    else if load_level <=? 10 then "high"
    else "extreme" in
  let load_mae := default base_mae (ctx_load_level contexts !! load_cat) in
  let dow_mae := default base_mae (ctx_day_of_week contexts !! day_of_week) in
  let context_mae := ((hour_mae + load_mae + dow_mae) / 3)%Q in
  if Qltb context_mae (base_mae * (85 # 100)) then ("high", context_mae)
  else if Qltb context_mae (base_mae * (115 # 100)) then ("medium", context_mae)
  else ("low", context_mae).

(** ** Data frames, timestamps and exceptions *)

Abbreviation Timestamp := Z.

(** [pd.Timedelta(hours=1)], in nanoseconds. *)
Definition one_hour : Z := 3600000000000.

Definition ts_hour (t : Timestamp) : Z := (t / one_hour) mod 24.

(** [Timestamp.dayofweek]: Monday is 0; day 0 of the epoch is a Thursday. *)
Definition ts_dayofweek (t : Timestamp) : Z := (t / (24 * one_hour) + 3) mod 7.

(** A row: (['timestamp'], ['count']). *)
Abbreviation DataFrame := (list (Timestamp * Z)).

Inductive exn :=
  | IndexError                                (* [.iloc[-k]] out of bounds *)
  | KeyError_not_in_index (cols : list string) (* [df[feature_cols]] *)
  | KeyError (key : string).                  (* [prediction_intervals[k]] *)

Inductive result (A : Type) :=
  | Ok (a : A)
  | Raise (e : exn).
Arguments Ok {A} a.
Arguments Raise {A} e.

Global Instance result_bind : MBind result := fun A B k r =>
  match r with
  | Ok a => k a
  | Raise e => Raise e
  end.
Global Instance result_ret : MRet result := fun A a => Ok a.

(** [s.iloc[-k]] for [k >= 1]. *)
Definition iloc_neg {A} (s : list A) (k : nat) : result A :=
  if (k <=? length s)%nat then
    match s !! (length s - k)%nat with
    | Some a => Ok a
    | None => Raise IndexError
    end
  else Raise IndexError.

(** [s.tail(n)], also [s.iloc[-n:]]. *)
Definition tail {A} (n : nat) (s : list A) : list A :=
  drop (length s - n)%nat s.

Definition counts (df : DataFrame) : list Z := snd <$> df.
Definition timestamps (df : DataFrame) : list Timestamp := fst <$> df.

Definition Zsum (l : list Z) : Z := foldr Z.add 0 l.

(** [Series.mean()] of an integer column; it is only taken of columns with
    at least three entries. *)
Definition mean (l : list Z) : Q :=
  (inject_Z (Zsum l) / inject_Z (Z.of_nat (length l)))%Q.

(** [model_data], the unpickled artifact.  The trained regressor is opaque:
    [model] is what [model.predict(X)[0]] returns for the one-row frame whose
    values, in column order, are the argument. *)
Record ModelData := {
  model : list Q -> Q;
  feature_cols : list string;
  prediction_intervals : gmap string Q;
  contexts : Contexts;
  test_mae : Q;
  high_load_threshold : Q
}.

(** The ['reasoning'] entry of a prediction. *)
Record Reasoning := {
  r_hour : Z;
  r_is_night : Q;
  r_is_evening_rush : Q;
  r_recent_trend : string;
  r_high_load_recent : bool
}.

(** The dictionary [predict_next_hour_enhanced] returns. *)
Record Prediction := {
  timestamp : Timestamp;
  predicted_arrivals : Z;
  lower_bound : Z;
  upper_bound : Z;
  confidence_level : string;
  confidence_interval : string;
  expected_error : Q;
  reasoning : Reasoning
}.

Definition has_col (c : string) (cols : list string) : bool :=
  bool_decide (c ∈ cols).

(** [bool(x)] for a number. *)
Definition py_bool (x : Q) : bool := negb (Qeq_bool x 0).

(** The [features] literal of lines 71-79. *)
Definition base_features (next_timestamp : Timestamp) (lag_1 lag_2 lag_3 : Z)
    (high_load_threshold : Q) : gmap string Q :=
  <["high_load_recent" :=
      inject_Z (int_of_bool (Qleb high_load_threshold (inject_Z lag_1)))]>
  (<["is_weekend" := inject_Z (int_of_bool (5 <=? ts_dayofweek next_timestamp))]>
  (<["day_of_week" := inject_Z (ts_dayofweek next_timestamp)]>
  (<["hour" := inject_Z (ts_hour next_timestamp)]>
  (<["lag_3" := inject_Z lag_3]>
  (<["lag_2" := inject_Z lag_2]>
  (<["lag_1" := inject_Z lag_1]> ∅)))))).

(** [if name in feature_cols: features[name] = v]. *)
Definition add_optional (feature_cols : list string) (name : string) (v : Q)
    (features : gmap string Q) : gmap string Q :=
  if has_col name feature_cols then <[name := v]> features else features.

(** The feature builder: lines 62-95 of [predict_next_hour_enhanced].  It
    returns the target timestamp and the [features] dictionary: the seven
    entries always present, then the optional ones the artifact names. *)
Definition build_features (recent_data : DataFrame) (model_data : ModelData)
    : result (Timestamp * gmap string Q) :=
  let feature_cols := feature_cols model_data in
  last_timestamp ← iloc_neg (timestamps recent_data) 1;
  let next_timestamp := last_timestamp + one_hour in
  lag_1 ← iloc_neg (counts recent_data) 1;
  lag_2 ← iloc_neg (counts recent_data) 2;
  lag_3 ← iloc_neg (counts recent_data) 3;
  let hour := ts_hour next_timestamp in
  let features :=
    base_features next_timestamp lag_1 lag_2 lag_3
      (high_load_threshold model_data) in
  let features :=
    add_optional feature_cols "is_evening_rush"
      (inject_Z (int_of_bool ((17 <=? hour) && (hour <=? 20)))) features in
  let features :=
    add_optional feature_cols "is_night"
      (inject_Z (int_of_bool ((0 <=? hour) && (hour <=? 6)))) features in
  let features :=
    add_optional feature_cols "avg_last_3h"
      (mean (tail 3 (counts recent_data))) features in
  let features :=
    add_optional feature_cols "trend_last_3h"
      (* an int64 subtraction; on Z it is exact *)
      (inject_Z (lag_1 - lag_3)) features in
  features ←
    (if has_col "same_hour_yesterday" feature_cols
     then
       if (24 <=? length recent_data)%nat
       then
         c ← iloc_neg (counts recent_data) 24;
         Ok (<["same_hour_yesterday" := inject_Z c]> features)
       else Ok (<["same_hour_yesterday" := mean (counts recent_data)]> features)
     else Ok features);
  Ok (next_timestamp, features).

(** [pd.DataFrame([features])[feature_cols]]: the values of the named columns,
    in that order; a [KeyError] listing the names that are not columns. *)
Definition select_columns (features : gmap string Q) (cols : list string)
    : result (list Q) :=
  match filter (fun c => features !! c = None) cols with
  | [] => Ok ((fun c => default 0%Q (features !! c)) <$> cols)
  | missing => Raise (KeyError_not_in_index missing)
  end.

Definition dict_get (d : gmap string Q) (k : string) : result Q :=
  match d !! k with
  | Some v => Ok v
  | None => Raise (KeyError k)
  end.

Definition predict_next_hour_enhanced (recent_data : DataFrame)
    (model_data : ModelData) (confidence_level : string) : result Prediction :=
  let base_mae := test_mae model_data in
  '(next_timestamp, features) ← build_features recent_data model_data;
  X_pred ← select_columns features (feature_cols model_data);
  let raw_prediction := py_max0 (model model_data X_pred) in
  let prediction := py_round raw_prediction in
  interval_width ← dict_get (prediction_intervals model_data) confidence_level;
  let lower_bound := Z.max 0 (py_round (raw_prediction - interval_width)) in
  let upper_bound := py_round (raw_prediction + interval_width) in
  let '(confidence, context_mae) :=
    get_confidence_level (ts_hour next_timestamp) prediction
      (ts_dayofweek next_timestamp) (contexts model_data) base_mae in
  Ok {| timestamp := next_timestamp;
        predicted_arrivals := prediction;
        lower_bound := lower_bound;
        upper_bound := upper_bound;
        confidence_level := confidence;
        confidence_interval := confidence_level;
        expected_error := py_round2 context_mae;
        reasoning :=
          {| r_hour := ts_hour next_timestamp;
             r_is_night := default 0%Q (features !! "is_night");
             r_is_evening_rush := default 0%Q (features !! "is_evening_rush");
             r_recent_trend :=
               if Qltb 0 (default 0%Q (features !! "trend_last_3h"))
               then "increasing" else "decreasing";
             r_high_load_recent :=
               py_bool (default 0%Q (features !! "high_load_recent")) |} |}.

(** ** The iterative forecaster *)

(** [pd.to_datetime] of a column that already holds timestamps. *)
Definition to_datetime (col : list Timestamp) : list Timestamp := col.

(** [df['timestamp'] = col]. *)
Definition set_timestamp (df : DataFrame) (col : list Timestamp) : DataFrame :=
  zip col (counts df).

Fixpoint insert_row (r : Timestamp * Z) (df : DataFrame) : DataFrame :=
  match df with
  | [] => [r]
  | r' :: df' => if fst r <=? fst r' then r :: df else r' :: insert_row r df'
  end.

(** [df.sort_values('timestamp').reset_index(drop=True)]: the rows in
    ascending order of timestamp.  For pairwise distinct timestamps that
    order is unique, whatever the algorithm.  The default algorithm of pandas
    is not stable, so rows with equal timestamps may come out in any order;
    this definition leaves them in their input order, which is one of the
    orders possible. *)
Fixpoint sort_values (df : DataFrame) : DataFrame :=
  match df with
  | [] => []
  | r :: df' => insert_row r (sort_values df')
  end.

(** One pass of the loop body (lines 173-191): the prediction and the
    working data for the next pass. *)
Definition forecast_step (working_data : DataFrame) (model_data : ModelData)
    (confidence_level : string) : result (Prediction * DataFrame) :=
  pred ← predict_next_hour_enhanced working_data model_data confidence_level;
  let new_row := [(timestamp pred, predicted_arrivals pred)] in
  let working_data := working_data ++ new_row in
  let working_data :=
    if (50 <? length working_data)%nat then tail 50 working_data
    else working_data in
  Ok (pred, working_data).

Fixpoint forecast_loop (hours : list Z) (working_data : DataFrame)
    (predictions : list Prediction) (model_data : ModelData)
    (confidence_level : string) : result (list Prediction) :=
  match hours with
  | [] => Ok predictions
  | _ :: hours' =>
      '(pred, working_data) ←
        forecast_step working_data model_data confidence_level;
      forecast_loop hours' working_data (predictions ++ [pred])
        model_data confidence_level
  end.

(** [range(1, 7)]. *)
Definition range_1_7 : list Z := [1; 2; 3; 4; 5; 6].

Definition predict_next_6_hours (recent_data : DataFrame)
    (model_data : ModelData) (confidence_level : string)
    : result (list Prediction) :=
  let working_data := recent_data in
  let working_data :=
    set_timestamp working_data (to_datetime (timestamps working_data)) in
  let working_data := sort_values working_data in
  (* the starting timestamp that line 168 prints *)
  _ ← iloc_neg (timestamps working_data) 1;
  forecast_loop range_1_7 working_data [] model_data confidence_level.

(** ** Reference semantics: data frames as objects in a store

    The functions above treat a frame as a value.  In the program a frame is
    an object that the caller and the callee share by reference.  This module
    threads a store of frames, with a log of the objects assigned in place,
    through the same code, so that what [predict_next_6_hours] does to the
    caller's object can be stated. *)
Module Store.

Record state := {
  objects : gmap nat DataFrame; (* the frames alive, by address *)
  mutated : list nat            (* addresses assigned in place, latest first *)
}.

Definition M (A : Type) : Type := state → result A * state.

Global Instance M_ret : MRet M := fun A a s => (Ok a, s).
Global Instance M_bind : MBind M := fun A B k m s =>
  match m s with
  | (Ok a, s') => k a s'
  | (Raise e, s') => (Raise e, s')
  end.

Definition lift {A} (r : result A) : M A := fun s => (r, s).

(** Reading the rows of a frame. *)
Definition read (l : nat) : M DataFrame :=
  fun s => (Ok (default [] (objects s !! l)), s).

(** A new frame object. *)
Definition alloc (df : DataFrame) : M nat :=
  fun s =>
    let l := fresh (dom (objects s)) in
    (Ok l, {| objects := <[l := df]> (objects s); mutated := mutated s |}).

(** Assignment into an existing frame object. *)
Definition write (l : nat) (df : DataFrame) : M unit :=
  fun s =>
    (Ok (), {| objects := <[l := df]> (objects s); mutated := l :: mutated s |}).

(** The single-step predictor only reads its frame ([.iloc], [.mean()],
    [len]). *)
Definition predict_next_hour_enhanced (recent_data : nat)
    (model_data : ModelData) (confidence_level : string) : M Prediction :=
  df ← read recent_data;
  lift (predict_next_hour_enhanced df model_data confidence_level).

Fixpoint forecast_loop (hours : list Z) (working_data : nat)
    (predictions : list Prediction) (model_data : ModelData)
    (confidence_level : string) : M (list Prediction) :=
  match hours with
  | [] => mret predictions
  | _ :: hours' =>
      pred ← predict_next_hour_enhanced working_data model_data confidence_level;
      (* new_row = pd.DataFrame({...}) *)
      new_row ← alloc [(timestamp pred, predicted_arrivals pred)];
      (* working_data = pd.concat([working_data, new_row], ignore_index=True) *)
      df ← read working_data;
      row ← read new_row;
      working_data ← alloc (df ++ row);
      (* if len(working_data) > 50: working_data = working_data.tail(50)... *)
      df ← read working_data;
      working_data ←
        (if (50 <? length df)%nat then alloc (tail 50 df)
         else mret working_data);
      forecast_loop hours' working_data (predictions ++ [pred])
        model_data confidence_level
  end.

Definition predict_next_6_hours (recent_data : nat)
    (model_data : ModelData) (confidence_level : string)
    : M (list Prediction) :=
  (* working_data = recent_data.copy() *)
  df ← read recent_data;
  working_data ← alloc df;
  (* working_data['timestamp'] = pd.to_datetime(working_data['timestamp']) *)
  df ← read working_data;
  _ ← write working_data (set_timestamp df (to_datetime (timestamps df)));
  (* working_data = working_data.sort_values('timestamp').reset_index(drop=True) *)
  df ← read working_data;
  working_data ← alloc (sort_values df);
  df ← read working_data;
  _ ← lift (iloc_neg (timestamps df) 1);
  forecast_loop range_1_7 working_data [] model_data confidence_level.

End Store.

(** ** The callers: [llm_explainer.py] and [load_prediction_api.py]

    The JSON payload of a request is taken after parsing: its rows are
    (timestamp, count) pairs.  Texts that are only rendered ([isoformat],
    the prompt sent to the language model) are not modelled; the language
    model is a parameter.  [datetime.now()] is an argument. *)

Definition digit (n : Z) : Ascii.ascii := Ascii.ascii_of_nat (48 + Z.to_nat n).

(** A number below 100, zero-padded to two digits. *)
Definition two_digits (n : Z) : string :=
  String (digit (n / 10)) (String (digit (n mod 10)) EmptyString).

Definition one_minute : Z := 60000000000.

Definition ts_minute (t : Timestamp) : Z := (t / one_minute) mod 60.

(** [t.strftime('%I:%M %p')]: the time on a 12-hour clock. *)
Definition strftime_I_M_p (t : Timestamp) : string :=
  let h := ts_hour t in
  let h12 := if h mod 12 =? 0 then 12 else h mod 12 in
  two_digits h12 +:+ ":" +:+ two_digits (ts_minute t) +:+ " "
    +:+ (if h <? 12 then "AM" else "PM").

(** What these two modules can raise, or see raised. *)
Inductive exception :=
  | Exn (e : exn)               (* from pandas or [predictor.py] *)
  | ValueError_max_empty        (* [max()] or [min()] of an empty sequence *)
  | ValueError (msg : string)   (* [LLMExplainer.__init__] *)
  | ZeroDivisionError
  | GroqError (msg : string).   (* whatever the call to the model raises *)

(** [max(l, key=key)]: the first of the items with the largest key. *)
Definition py_max_by {A} (key : A → Z) (l : list A) : option A :=
  match l with
  | [] => None
  | x :: l' => Some (foldl (fun best y => if key best <? key y then y else best) x l')
  end.

(** [min(l, key=key)]: the first of the items with the smallest key. *)
Definition py_min_by {A} (key : A → Z) (l : list A) : option A :=
  match l with
  | [] => None
  | x :: l' => Some (foldl (fun best y => if key y <? key best then y else best) x l')
  end.

(** [sum(p['predicted_arrivals'] for p in predictions)]. *)
Definition total_arrivals (predictions : list Prediction) : Z :=
  Zsum (predicted_arrivals <$> predictions).

(** The dictionary [explain_6_hour_forecast] returns. *)
Record Explanation := {
  overall_explanation : string;
  total_expected : Z;
  ex_peak_hour : Timestamp;
  ex_peak_count : Z;
  hourly_predictions : list Prediction
}.

(** [explain_6_hour_forecast(predictions, groq_api_key)].  [llm] is the
    outcome of [explainer.explain_custom_prompt(prompt)] for the prompt
    built for this key and these predictions. *)
Definition explain_6_hour_forecast
    (llm : string → list Prediction → exception + string)
    (predictions : list Prediction) (groq_api_key : string)
    : exception + Explanation :=
  (* explainer = LLMExplainer(api_key=groq_api_key) *)
  if decide (groq_api_key = "")
  then inl (ValueError
              "Groq API key is required! Get one from https://console.groq.com")
  else
    let total_expected := total_arrivals predictions in
    (* avg_per_hour = total_expected / len(predictions) *)
    if decide (length predictions = 0%nat) then inl ZeroDivisionError
    else
      match py_max_by predicted_arrivals predictions,
            py_min_by predicted_arrivals predictions with
      | Some peak_pred, Some low_pred =>
          match llm groq_api_key predictions with
          | inl e => inl e
          | inr explanation =>
              inr {| overall_explanation := explanation;
                     total_expected := total_expected;
                     ex_peak_hour := timestamp peak_pred;
                     ex_peak_count := predicted_arrivals peak_pred;
                     hourly_predictions := predictions |}
          end
      | _, _ => inl ValueError_max_empty
      end.

(** The parsed JSON body of a request. *)
Record Payload := {
  recent_data_field : option DataFrame;       (* data['recent_data'] *)
  confidence_level_field : option string      (* data.get('confidence_level') *)
}.

(** One item of ["forecast_data"]. *)
Record ForecastEntry := {
  fe_hour : Z;
  fe_timestamp : Timestamp;
  fe_time_label : string;
  fe_predicted_arrivals : Z;
  fe_lower_bound : Z;
  fe_upper_bound : Z;
  fe_confidence_level : string;
  fe_confidence_interval : string;
  fe_expected_error : Q
}.

Record Summary := {
  total_predicted : Z;
  peak_hour : string;
  peak_count : Z
}.

(** The body of a response. *)
Inductive Body :=
  | ErrorBody (error : string)
  | ExceptionBody (e : exception)   (* ["error": str(e)] *)
  | ForecastBody (forecast_data : list ForecastEntry) (summary : Summary)
      (generated_at : Timestamp)
  | InsightsBody (forecast_data : list ForecastEntry) (explanation : string)
      (summary : Summary) (generated_at : Timestamp).

(** The loop of lines 97-109: [enumerate(predictions, 1)]. *)
Definition format_predictions (predictions : list Prediction)
    : list ForecastEntry :=
  imap (fun i pred =>
          {| fe_hour := Z.of_nat i + 1;
             fe_timestamp := timestamp pred;
             fe_time_label := strftime_I_M_p (timestamp pred);
             fe_predicted_arrivals := predicted_arrivals pred;
             fe_lower_bound := lower_bound pred;
             fe_upper_bound := upper_bound pred;
             fe_confidence_level := confidence_level pred;
             fe_confidence_interval := confidence_interval pred;
             fe_expected_error := expected_error pred |}) predictions.

(** The checks both endpoints make on the request (lines 72-94): the
    predictions, or the response that ends the request. *)
Definition predictions_of_request (model_data : ModelData)
    (data : option Payload) : Body * Z + list Prediction :=
  match data ≫= recent_data_field with
  | None => inl (ErrorBody "Missing 'recent_data' in request", 400)
  | Some recent_data =>
      (* recent_data['timestamp'] of a frame built from no row *)
      if decide (recent_data = [])
      then inl (ExceptionBody (Exn (KeyError "timestamp")), 500)
      else if (length recent_data <? 3)%nat
      then inl (ErrorBody "Need at least 3 hours of recent data", 400)
      else
        let confidence_level :=
          default "90%" (data ≫= confidence_level_field) in
        match predict_next_6_hours recent_data model_data confidence_level with
        | Raise e => inl (ExceptionBody (Exn e), 500)
        | Ok predictions => inr predictions
        end
  end.

(** [forecast_icu_load()], with the global [model_data], the parsed request
    body and the current time as arguments. *)
Definition forecast_icu_load (model_data : option ModelData)
    (data : option Payload) (now : Timestamp) : Body * Z :=
  match model_data with
  | None => (ErrorBody "Load prediction model not loaded", 500)
  | Some model_data =>
      match predictions_of_request model_data data with
      | inl response => response
      | inr predictions =>
          let formatted_predictions := format_predictions predictions in
          match py_max_by predicted_arrivals predictions,
                py_max_by id (predicted_arrivals <$> predictions) with
          | Some peak, Some peak_count =>
              (ForecastBody formatted_predictions
                 {| total_predicted := total_arrivals predictions;
                    peak_hour := strftime_I_M_p (timestamp peak);
                    peak_count := peak_count |}
                 now, 200)
          | _, _ => (ExceptionBody ValueError_max_empty, 500)
          end
      end
  end.

(** [forecast_with_ai_insights()], with the global [GROQ_API_KEY] as an
    argument too.  Its summary sits under ["ai_insights"], with the total
    under the key ["total_expected"]; the record keeps the values. *)
Definition forecast_with_ai_insights
    (llm : string → list Prediction → exception + string)
    (model_data : option ModelData) (GROQ_API_KEY : string)
    (data : option Payload) (now : Timestamp) : Body * Z :=
  match model_data with
  | None => (ErrorBody "Load prediction model not loaded", 500)
  | Some model_data =>
      if decide (GROQ_API_KEY = "")
      then (ErrorBody "GROQ_API_KEY not configured for AI insights", 500)
      else
        match predictions_of_request model_data data with
        | inl response => response
        | inr predictions =>
            match explain_6_hour_forecast llm predictions GROQ_API_KEY with
            | inl e => (ExceptionBody e, 500)
            | inr explanation_data =>
                (InsightsBody (format_predictions predictions)
                   (overall_explanation explanation_data)
                   {| total_predicted := total_expected explanation_data;
                      peak_hour := strftime_I_M_p (ex_peak_hour explanation_data);
                      peak_count := ex_peak_count explanation_data |}
                   now, 200)
            end
        end
  end.

(** ** Vocabulary of the statements *)

(** The load bucket of a predicted count, as the specification words it. *)
Inductive load_bucket (count : Z) : string → Prop :=
  | bucket_low : count <= 3 → load_bucket count "low"
  | bucket_medium : 3 < count <= 6 → load_bucket count "medium"
  | bucket_high : 6 < count <= 10 → load_bucket count "high"
  | bucket_extreme : 10 < count → load_bucket count "extreme".

(** The names the builder can put in [features]. *)
Definition computed_features : list string :=
  ["lag_1"; "lag_2"; "lag_3"; "hour"; "day_of_week"; "is_weekend";
   "high_load_recent"; "is_evening_rush"; "is_night"; "avg_last_3h";
   "trend_last_3h"; "same_hour_yesterday"].

Definition ts_le (r1 r2 : Timestamp * Z) : Prop := fst r1 <= fst r2.

Definition ts_lt (r1 r2 : Timestamp * Z) : Prop := fst r1 < fst r2.

Definition next_working_data (w : DataFrame) (p : Prediction) : DataFrame :=
  let w1 := w ++ [(timestamp p, predicted_arrivals p)] in
  if (50 <? length w1)%nat then tail 50 w1 else w1.

Definition bounds_ordered (p : Prediction) : Prop :=
  0 <= lower_bound p
  ∧ lower_bound p <= predicted_arrivals p
  ∧ predicted_arrivals p <= upper_bound p.

(** Rows [i], [i+1], ... of a timestamp column are one hour apart. *)
Definition hourly_from (i : nat) (col : list Timestamp) : Prop :=
  ∀ (j : nat) a b, (i <= j)%nat →
    col !! j = Some a → col !! S j = Some b → b = a + one_hour.

(** Rows [i], [i+1], ... are at least one hour apart. *)
Definition spaced_from (i : nat) (col : list Timestamp) : Prop :=
  ∀ (j : nat) a b, (i <= j)%nat →
    col !! j = Some a → col !! S j = Some b → a + one_hour <= b.

(** The label an endpoint asks the forecaster for. *)
Definition requested_label (data : option Payload) : string :=
  default "90%" (data ≫= confidence_level_field).

Global Instance ts_le_dec : RelDecision ts_le :=
  fun r1 r2 => decide (fst r1 <= fst r2).

Global Instance ts_lt_dec : RelDecision ts_lt :=
  fun r1 r2 => decide (fst r1 < fst r2).

(** The values of a numpy [int64]. *)
Definition int64 (z : Z) : Prop := - 2 ^ 63 <= z < 2 ^ 63.

(** ** Concrete inputs *)

Definition empty_contexts : Contexts :=
  {| ctx_hour := ∅; ctx_load_level := ∅; ctx_day_of_week := ∅ |}.

Definition contexts_85 : Contexts :=
  {| ctx_hour := {[ 0 := (85 # 100)%Q ]};
     ctx_load_level := {[ "low" := (85 # 100)%Q ]};
     ctx_day_of_week := {[ 0 := (85 # 100)%Q ]} |}.

Definition md_example : ModelData := {|
  model := fun _ => (13 # 2)%Q;
  feature_cols :=
    ["lag_1"; "lag_2"; "lag_3"; "hour"; "day_of_week"; "is_weekend";
     "high_load_recent"; "same_hour_yesterday"];
  prediction_intervals := {[ "90%" := 2%Q; "95%" := 3%Q; "99%" := 4%Q ]};
  contexts := empty_contexts;
  test_mae := 1%Q;
  high_load_threshold := 10%Q
|}.

(** The same artifact, naming a feature the builder does not compute. *)
Definition md_weather : ModelData := {|
  model := model md_example;
  feature_cols := ["lag_1"; "weather"];
  prediction_intervals := prediction_intervals md_example;
  contexts := contexts md_example;
  test_mae := test_mae md_example;
  high_load_threshold := high_load_threshold md_example
|}.

Definition w_example : DataFrame :=
  [(0 - 2 * one_hour, 5); (0 - one_hour, 7); (0, 6)].

Definition w_five : DataFrame :=
  [(0, 2); (one_hour, 4); (2 * one_hour, 6); (3 * one_hour, 8);
   (4 * one_hour, 10)].

(** Twenty-four observations, one per hour, with counts 1 to 24. *)
Definition w_day : DataFrame :=
  (fun i => (Z.of_nat i * one_hour, Z.of_nat i + 1)) <$> seq 0 24.

Definition s_example : Store.state :=
  {| Store.objects := {[ 0%nat := w_example ]}; Store.mutated := [] |}.

(** An artifact that names every feature the builder computes. *)
Definition md_full : ModelData := {|
  model := model md_example;
  feature_cols := computed_features;
  prediction_intervals := prediction_intervals md_example;
  contexts := contexts md_example;
  test_mae := test_mae md_example;
  high_load_threshold := high_load_threshold md_example
|}.

(** An artifact whose model returns a negative number. *)
Definition md_negative : ModelData := {|
  model := fun _ => (-3 # 1)%Q;
  feature_cols := feature_cols md_example;
  prediction_intervals := prediction_intervals md_example;
  contexts := contexts md_example;
  test_mae := test_mae md_example;
  high_load_threshold := high_load_threshold md_example
|}.

(** Thirty hourly observations. *)
Definition w_30 : DataFrame :=
  (fun i => (Z.of_nat i * one_hour, Z.of_nat i mod 7)) <$> seq 0 30.

(** An artifact whose model reads its four features, the three lags each
    with a weight of its own. *)
Definition md_lags : ModelData := {|
  model := fun X =>
    match X with
    | [lag_1; lag_2; lag_3; same_hour_yesterday] =>
        (lag_1 + 10 * lag_2 + 100 * lag_3 + same_hour_yesterday)%Q
    | _ => 0%Q
    end;
  feature_cols := ["lag_1"; "lag_2"; "lag_3"; "same_hour_yesterday"];
  prediction_intervals := prediction_intervals md_example;
  contexts := contexts md_example;
  test_mae := test_mae md_example;
  high_load_threshold := high_load_threshold md_example
|}.

(** Three rows with one and the same timestamp. *)
Definition w_tied : DataFrame := [(0, 1); (0, 2); (0, 9)].

(** Twenty-four observations in ascending order, from hour 0 to hour 23,
    the second of them half an hour late. *)
Definition w_uneven : DataFrame :=
  (fun i => (if (i =? 1)%nat then one_hour + one_hour / 2
             else Z.of_nat i * one_hour,
             Z.of_nat i + 1)) <$> seq 0 24.

(** A request for the six-hour forecast of [w_example]. *)
Definition request_example : option Payload :=
  Some {| recent_data_field := Some w_example; confidence_level_field := None |}.

(** A language model that always answers. *)
Definition llm_example (key : string) (predictions : list Prediction)
    : exception + string := inr "FORECAST: steady.".

(** * Properties *)

Ltac features_lookup :=
  unfold add_optional, base_features;
  repeat match goal with
    | |- context [if ?b then _ else _] => destruct b
    end;
  repeat first
    [ rewrite lookup_insert_eq
    | rewrite lookup_insert_ne by discriminate
    | rewrite lookup_empty ];
  try reflexivity.

(** ** Comparisons and rounding *)

Lemma Qltb_lt (x y : Q) : Qltb x y = true ↔ (x < y)%Q.
Proof.
  unfold Qltb. destruct (Qcompare_spec x y) as [E | L | G]; split; intros H;
    try discriminate; try reflexivity; try assumption.
  - rewrite E in H. exfalso. exact (Qlt_irrefl _ H).
  - exfalso. exact (Qlt_irrefl _ (Qlt_trans _ _ _ H G)).
Qed.

Lemma Qltb_ge (x y : Q) : Qltb x y = false ↔ (y <= x)%Q.
Proof.
  rewrite <- not_true_iff_false, Qltb_lt. split.
  - apply Qnot_lt_le.
  - apply Qle_not_lt.
Qed.

Lemma Qleb_le (x y : Q) : Qleb x y = true ↔ (x <= y)%Q.
Proof. unfold Qleb. rewrite negb_true_iff. apply Qltb_ge. Qed.

Global Instance py_round_proper : Proper (Qeq ==> eq) py_round.
Proof.
  intros x y E. unfold py_round.
  rewrite (Qfloor_comp _ _ E).
  assert (E' : (x - inject_Z (Qfloor y) == y - inject_Z (Qfloor y))%Q)
    by (rewrite E; reflexivity).
  rewrite (Qcompare_comp _ _ E' _ _ (Qeq_refl (1 # 2))). reflexivity.
Qed.

Lemma inject_Z_succ (z : Z) : (inject_Z (z + 1) == inject_Z z + 1)%Q.
Proof. rewrite inject_Z_plus. reflexivity. Qed.

(** The rounded value is within one half of the argument. *)
Lemma py_round_near (x : Q) :
  (inject_Z (py_round x) - (1 # 2) <= x ∧ x <= inject_Z (py_round x) + (1 # 2))%Q.
Proof.
  pose proof (Qfloor_le x) as Hlo. pose proof (Qlt_floor x) as Hhi.
  rewrite inject_Z_succ in Hhi.
  unfold py_round.
  destruct (Qcompare_spec (x - inject_Z (Qfloor x)) (1 # 2)) as [E | L | G].
  - destruct (Z.even (Qfloor x)); [| rewrite inject_Z_succ]; split; lra.
  - split; lra.
  - rewrite inject_Z_succ. split; lra.
Qed.

Lemma inject_Z_le_succ (a b : Z) : a < b → (inject_Z a + 1 <= inject_Z b)%Q.
Proof.
  intros H. rewrite <- inject_Z_succ. rewrite <- Zle_Qle. lia.
Qed.

(** Rounding is monotone. *)
Lemma py_round_mono (x y : Q) : (x <= y)%Q → py_round x <= py_round y.
Proof.
  intros Hxy.
  destruct (Z_le_gt_dec (py_round x) (py_round y)) as [H | H]; [exact H |].
  exfalso.
  pose proof (py_round_near x) as [Hx _].
  pose proof (py_round_near y) as [_ Hy].
  assert (Hgap : (inject_Z (py_round y) + 1 <= inject_Z (py_round x))%Q)
    by (apply inject_Z_le_succ; lia).
  assert (E : (x == y)%Q) by lra.
  rewrite (py_round_proper _ _ E) in H. lia.
Qed.

Lemma py_round_inject (z : Z) : py_round (inject_Z z) = z.
Proof.
  unfold py_round. rewrite Qfloor_Z.
  destruct (Qcompare_spec (inject_Z z - inject_Z z) (1 # 2)) as [E | L | G];
    [exfalso; lra | reflexivity | exfalso; lra].
Qed.

Lemma py_round_nonneg (x : Q) : (0 <= x)%Q → 0 <= py_round x.
Proof.
  intros H. change 0 with (py_round (inject_Z 0)) at 1.
  apply py_round_mono. exact H.
Qed.

Lemma py_max0_nonneg (x : Q) : (0 <= py_max0 x)%Q.
Proof.
  unfold py_max0. destruct (Qltb 0 x) eqn:E.
  - apply Qltb_lt in E. lra.
  - lra.
Qed.

(** ** The confidence classifier (C2) *)

(** C2, as stated, fails at a base error of zero: with no contextual entry
    the blended error is 0, which equals 0.85 x base, and the label is
    'low', not 'medium'. *)
Lemma get_confidence_level_zero_base :
  let r := get_confidence_level 0 0 0 empty_contexts 0 in
  (snd r == 0 * (85 # 100))%Q ∧ fst r = "low" ∧ fst r ≠ "medium".
Proof. vm_compute. repeat split; discriminate. Qed.

(** C2 (amended): the blended error is the mean of the three lookups, each
    falling back to the base error; the label is 'high' iff blended <
    0.85 x base, 'medium' iff 0.85 x base <= blended < 1.15 x base, 'low'
    otherwise; a blended error equal to 0.85 x base gives 'medium' when the
    base error is positive, and one equal to 1.15 x base gives 'low' when the
    base error is not negative. *)
Theorem get_confidence_level_spec (hour count day_of_week : Z)
    (ctx : Contexts) (base : Q) (bucket : string) :
  load_bucket count bucket →
  let blended :=
    ((default base (ctx_hour ctx !! hour)
      + default base (ctx_load_level ctx !! bucket)
      + default base (ctx_day_of_week ctx !! day_of_week)) / 3)%Q in
  let r := get_confidence_level hour count day_of_week ctx base in
  snd r = blended
  ∧ (fst r = "high" ↔ (blended < base * (85 # 100))%Q)
  ∧ (fst r = "medium" ↔
       (base * (85 # 100) <= blended)%Q ∧ (blended < base * (115 # 100))%Q)
  ∧ (fst r = "low" ↔
       ¬ (blended < base * (85 # 100))%Q ∧ ¬ (blended < base * (115 # 100))%Q)
  ∧ ((0 < base)%Q → (blended == base * (85 # 100))%Q → fst r = "medium")
  ∧ ((0 <= base)%Q → (blended == base * (115 # 100))%Q → fst r = "low").
Proof.
  intros Hb blended r.
  assert (Hr : r =
    if Qltb blended (base * (85 # 100)) then ("high", blended)
    else if Qltb blended (base * (115 # 100)) then ("medium", blended)
    else ("low", blended)).
  { subst r blended. unfold get_confidence_level.
    destruct Hb as [H | H | H | H];
      repeat match goal with
        | |- context [?a <=? ?b] => destruct (Z.leb_spec a b); try lia
        end; reflexivity. }
  clearbody r blended. subst r.
  destruct (Qltb blended (base * (85 # 100))) eqn:E1;
    [apply Qltb_lt in E1 | apply Qltb_ge in E1];
    (destruct (Qltb blended (base * (115 # 100))) eqn:E2;
      [apply Qltb_lt in E2 | apply Qltb_ge in E2]);
    cbn [fst snd];
    repeat split; intros; try discriminate; try reflexivity; try lra;
    try (intros ?; lra);
    try match goal with H : _ ∧ _ |- _ => destruct H; try lra end.
  all: try (exfalso; lra).
  all: try match goal with H : ¬ _ |- _ => exfalso; apply H; lra end.
Qed.

Lemma get_confidence_level_spec_witness :
  load_bucket 0 "low" ∧ fst (get_confidence_level 0 0 0 contexts_85 1) = "medium".
Proof.
  assert (Hb : load_bucket 0 "low") by (apply bucket_low; lia).
  split; [exact Hb |].
  destruct (get_confidence_level_spec 0 0 0 contexts_85 1 "low" Hb)
    as (_ & _ & _ & _ & Hmed & _).
  apply Hmed; vm_compute; congruence.
Defined.

(** ** The feature builder *)

Lemma iloc_neg_fail {A} (s : list A) (k : nat) :
  (length s < k)%nat → iloc_neg s k = Raise IndexError.
Proof.
  intros H. unfold iloc_neg. destruct (Nat.leb_spec k (length s)); [lia | reflexivity].
Qed.

Lemma iloc_neg_ok {A} (s : list A) (k : nat) :
  (1 <= k <= length s)%nat →
  ∃ a, iloc_neg s k = Ok a ∧ s !! (length s - k)%nat = Some a.
Proof.
  intros H. unfold iloc_neg. destruct (Nat.leb_spec k (length s)); [| lia].
  destruct (s !! (length s - k)%nat) as [a |] eqn:E.
  - eauto.
  - apply lookup_ge_None in E. lia.
Qed.

Lemma iloc_neg_inv {A} (s : list A) (k : nat) a :
  iloc_neg s k = Ok a → (k <= length s)%nat ∧ s !! (length s - k)%nat = Some a.
Proof.
  unfold iloc_neg. destruct (Nat.leb_spec k (length s)); [| discriminate].
  destruct (s !! (length s - k)%nat); [| discriminate].
  intros [= ->]. auto.
Qed.

Lemma iloc_neg_1_last {A} (s : list A) a :
  iloc_neg s 1 = Ok a ↔ last s = Some a.
Proof.
  rewrite last_lookup. unfold iloc_neg.
  destruct s as [| x s]; [split; discriminate |].
  replace (length (x :: s) - 1)%nat with (pred (length (x :: s))) by lia.
  destruct (Nat.leb_spec 1 (length (x :: s))); [| simpl in *; lia].
  destruct ((x :: s) !! pred (length (x :: s))) eqn:E.
  - split; congruence.
  - split; discriminate.
Qed.

Lemma length_counts w : length (counts w) = length w.
Proof. unfold counts. apply length_fmap. Qed.
Lemma length_timestamps w : length (timestamps w) = length w.
Proof. unfold timestamps. apply length_fmap. Qed.

Lemma build_features_short w md :
  (length w < 3)%nat → build_features w md = Raise IndexError.
Proof.
  intros H. unfold build_features.
  destruct w as [| a [| b [| c w]]]; try reflexivity.
  simpl in H. lia.
Qed.

Lemma has_col_true c cols : c ∈ cols → has_col c cols = true.
Proof. intros H. unfold has_col. by apply bool_decide_eq_true. Qed.

Lemma add_optional_is_Some cols name v f k :
  is_Some (f !! k) → is_Some (add_optional cols name v f !! k).
Proof.
  intros H. unfold add_optional. destruct (has_col name cols); [| exact H].
  rewrite lookup_insert. case_decide; eauto.
Qed.

Lemma add_optional_lookup cols name v f :
  name ∈ cols → add_optional cols name v f !! name = Some v.
Proof.
  intros H. unfold add_optional. rewrite (has_col_true _ _ H).
  apply lookup_insert_eq.
Qed.


Lemma base_features_is_Some t l1 l2 l3 thr k :
  k ∈ ["lag_1"; "lag_2"; "lag_3"; "hour"; "day_of_week"; "is_weekend";
       "high_load_recent"] →
  is_Some (base_features t l1 l2 l3 thr !! k).
Proof.
  intros H. unfold base_features.
  repeat (apply elem_of_cons in H as [-> | H]);
    [.. | by apply elem_of_nil in H];
    repeat (rewrite lookup_insert; case_decide; [eauto |]); congruence.
Qed.

(** What a successful run of the builder returns. *)
Lemma build_features_inv w md t f :
  build_features w md = Ok (t, f) →
  ∃ t0 l1 l2 l3 g,
    last (timestamps w) = Some t0 ∧ t = t0 + one_hour
    ∧ iloc_neg (counts w) 1 = Ok l1
    ∧ iloc_neg (counts w) 3 = Ok l3
    ∧ (∀ k, k ≠ "same_hour_yesterday" → f !! k = g !! k)
    ∧ (∀ k, is_Some (g !! k) → is_Some (f !! k))
    ∧ g = add_optional (feature_cols md) "trend_last_3h" (inject_Z (l1 - l3))
         (add_optional (feature_cols md) "avg_last_3h" (mean (tail 3 (counts w)))
         (add_optional (feature_cols md) "is_night"
            (inject_Z (int_of_bool ((0 <=? ts_hour t) && (ts_hour t <=? 6))))
         (add_optional (feature_cols md) "is_evening_rush"
            (inject_Z (int_of_bool ((17 <=? ts_hour t) && (ts_hour t <=? 20))))
         (base_features t l1 l2 l3 (high_load_threshold md)))))
    ∧ (if has_col "same_hour_yesterday" (feature_cols md)
       then if (24 <=? length w)%nat
            then ∃ c, counts w !! (length w - 24)%nat = Some c
                      ∧ f !! "same_hour_yesterday" = Some (inject_Z c)
            else f !! "same_hour_yesterday" = Some (mean (counts w))
       else f = g).
Proof.
  unfold build_features.
  destruct (iloc_neg (timestamps w) 1) as [t0 |] eqn:E0; [| discriminate].
  destruct (iloc_neg (counts w) 1) as [l1 |] eqn:E1; [| discriminate].
  destruct (iloc_neg (counts w) 2) as [l2 |] eqn:E2; [| discriminate].
  destruct (iloc_neg (counts w) 3) as [l3 |] eqn:E3; [| discriminate].
  cbn [mbind result_bind].
  set (g := add_optional _ "trend_last_3h" _ _).
  intros H. exists t0, l1, l2, l3, g.
  apply iloc_neg_1_last in E0.
  destruct (has_col "same_hour_yesterday" (feature_cols md)).
  - destruct (24 <=? length w)%nat.
    + destruct (iloc_neg (counts w) 24) as [c |] eqn:E24; [| discriminate].
      injection H as <- <-. apply iloc_neg_inv in E24 as [_ E24].
      rewrite length_counts in E24.
      repeat split; try done.
      * intros k Hk. by rewrite lookup_insert_ne.
      * intros k Hk. rewrite lookup_insert. case_decide; eauto.
      * exists c. split; [done | apply lookup_insert_eq].
    + injection H as <- <-.
      repeat split; try done.
      * intros k Hk. by rewrite lookup_insert_ne.
      * intros k Hk. rewrite lookup_insert. case_decide; eauto.
      * apply lookup_insert_eq.
  - injection H as <- <-. repeat split; done.
Qed.

Lemma build_features_ok w md :
  (3 <= length w)%nat →
  ∃ t0 f, last (timestamps w) = Some t0
          ∧ build_features w md = Ok (t0 + one_hour, f).
Proof.
  intros H. unfold build_features.
  destruct (iloc_neg_ok (timestamps w) 1) as (t0 & E0 & _);
    [rewrite length_timestamps; lia |].
  destruct (iloc_neg_ok (counts w) 1) as (l1 & E1 & _);
    [rewrite length_counts; lia |].
  destruct (iloc_neg_ok (counts w) 2) as (l2 & E2 & _);
    [rewrite length_counts; lia |].
  destruct (iloc_neg_ok (counts w) 3) as (l3 & E3 & _);
    [rewrite length_counts; lia |].
  rewrite E0, E1, E2, E3. cbn [mbind result_bind].
  exists t0. apply iloc_neg_1_last in E0.
  destruct (has_col "same_hour_yesterday" (feature_cols md)); [| eauto].
  destruct (Nat.leb_spec 24 (length w)); [| eauto].
  destruct (iloc_neg_ok (counts w) 24) as (c & E24 & _);
    [rewrite length_counts; lia |].
  rewrite E24. cbn [mbind result_bind]. eauto.
Qed.

Lemma build_features_raises w md e :
  build_features w md = Raise e → e = IndexError.
Proof.
  unfold build_features, iloc_neg.
  repeat match goal with
    | |- context [if ?b then _ else _] => destruct b
    | |- context [match ?o with Some _ => _ | None => _ end] => destruct o
    end; cbn [mbind result_bind]; congruence.
Qed.

Lemma build_features_present w md t f c :
  build_features w md = Ok (t, f) →
  c ∈ feature_cols md → c ∈ computed_features → is_Some (f !! c).
Proof.
  intros H Hin Hc.
  apply build_features_inv in H
    as (t0 & l1 & l2 & l3 & g & _ & _ & _ & _ & _ & Hfg & -> & Hshy).
  unfold computed_features in Hc.
  repeat (apply elem_of_cons in Hc as [-> | Hc]);
    [.. | by apply elem_of_nil in Hc].
  1-7: apply Hfg; do 4 apply add_optional_is_Some;
       apply base_features_is_Some; set_solver.
  - apply Hfg. do 3 apply add_optional_is_Some.
    rewrite add_optional_lookup; eauto.
  - apply Hfg. do 2 apply add_optional_is_Some.
    rewrite add_optional_lookup; eauto.
  - apply Hfg. do 1 apply add_optional_is_Some.
    rewrite add_optional_lookup; eauto.
  - apply Hfg. rewrite add_optional_lookup; eauto.
  - rewrite (has_col_true _ _ Hin) in Hshy.
    destruct (24 <=? length w)%nat; [destruct Hshy as (c & _ & ->) | rewrite Hshy];
      eauto.
Qed.

(** ** The single-step predictor *)

Lemma select_columns_ok (f : gmap string Q) (cols : list string) :
  (∀ c, c ∈ cols → is_Some (f !! c)) →
  select_columns f cols = Ok ((fun c => default 0%Q (f !! c)) <$> cols).
Proof.
  intros H. unfold select_columns.
  assert (E : filter (fun c => f !! c = None) cols = []).
  { induction cols as [| c cols IH]; [reflexivity |].
    rewrite filter_cons. destruct (decide (f !! c = None)) as [En | _].
    - destruct (H c) as [v Hv]; [set_solver | congruence].
    - apply IH. intros c' Hc'. apply H. set_solver. }
  by rewrite E.
Qed.

Lemma select_columns_raises (f : gmap string Q) (cols : list string) e :
  select_columns f cols = Raise e → ∃ missing, e = KeyError_not_in_index missing.
Proof.
  unfold select_columns. destruct (filter _ cols); [discriminate |].
  intros [= <-]. eauto.
Qed.

(** What a successful run of the single-step predictor returns. *)
Lemma predict_next_hour_enhanced_inv w md cl p :
  predict_next_hour_enhanced w md cl = Ok p →
  ∃ t f X width,
    build_features w md = Ok (t, f)
    ∧ select_columns f (feature_cols md) = Ok X
    ∧ prediction_intervals md !! cl = Some width
    ∧ timestamp p = t
    ∧ predicted_arrivals p = py_round (py_max0 (model md X))
    ∧ lower_bound p = Z.max 0 (py_round (py_max0 (model md X) - width))
    ∧ upper_bound p = py_round (py_max0 (model md X) + width)
    ∧ confidence_interval p = cl.
Proof.
  unfold predict_next_hour_enhanced.
  destruct (build_features w md) as [[t f] |] eqn:Ef; [| discriminate].
  cbn [mbind result_bind].
  destruct (select_columns f (feature_cols md)) as [X |] eqn:EX; [| discriminate].
  cbn [mbind result_bind]. unfold dict_get.
  destruct (prediction_intervals md !! cl) as [width |] eqn:Ew; [| discriminate].
  cbn [mbind result_bind].
  destruct (get_confidence_level _ _ _ _ _) as [confidence context_mae].
  intros [= <-]. exists t, f, X, width. repeat split; done.
Qed.

Lemma predict_next_hour_enhanced_ok w md cl width :
  (3 <= length w)%nat →
  feature_cols md ⊆ computed_features →
  prediction_intervals md !! cl = Some width →
  ∃ t0 p, last (timestamps w) = Some t0
          ∧ predict_next_hour_enhanced w md cl = Ok p
          ∧ timestamp p = t0 + one_hour.
Proof.
  intros Hlen Hsup Hcl.
  destruct (build_features_ok w md Hlen) as (t0 & f & Hlast & Hf).
  exists t0. unfold predict_next_hour_enhanced. rewrite Hf.
  cbn [mbind result_bind].
  rewrite select_columns_ok
    by (intros c Hc; eapply build_features_present; eauto).
  cbn [mbind result_bind]. unfold dict_get. rewrite Hcl.
  cbn [mbind result_bind].
  destruct (get_confidence_level _ _ _ _ _) as [confidence context_mae].
  eexists. split; [exact Hlast | split; reflexivity].
Qed.

Lemma predict_next_hour_enhanced_short w md cl :
  (length w < 3)%nat →
  predict_next_hour_enhanced w md cl = Raise IndexError.
Proof.
  intros H. unfold predict_next_hour_enhanced.
  by rewrite build_features_short.
Qed.

Lemma predict_next_hour_enhanced_unknown_label w md cl :
  (3 <= length w)%nat →
  feature_cols md ⊆ computed_features →
  prediction_intervals md !! cl = None →
  predict_next_hour_enhanced w md cl = Raise (KeyError cl).
Proof.
  intros Hlen Hsup Hcl.
  destruct (build_features_ok w md Hlen) as (t0 & f & Hlast & Hf).
  unfold predict_next_hour_enhanced. rewrite Hf.
  cbn [mbind result_bind].
  rewrite select_columns_ok
    by (intros c Hc; eapply build_features_present; eauto).
  cbn [mbind result_bind]. unfold dict_get. by rewrite Hcl.
Qed.

Lemma predict_next_hour_enhanced_KeyError w md cl k :
  predict_next_hour_enhanced w md cl = Raise (KeyError k) →
  k = cl ∧ prediction_intervals md !! cl = None.
Proof.
  unfold predict_next_hour_enhanced.
  destruct (build_features w md) as [[t f] | e] eqn:Ef.
  2: { apply build_features_raises in Ef as ->. discriminate. }
  cbn [mbind result_bind].
  destruct (select_columns f (feature_cols md)) as [X | e] eqn:EX.
  2: { apply select_columns_raises in EX as [missing ->]. discriminate. }
  cbn [mbind result_bind]. unfold dict_get.
  destruct (prediction_intervals md !! cl) as [width |].
  - cbn [mbind result_bind].
    destruct (get_confidence_level _ _ _ _ _). discriminate.
  - intros [= <-]. auto.
Qed.

(** ** Sorting by timestamp *)

Global Instance ts_lt_trans : Transitive ts_lt.
Proof. unfold ts_lt. intros x y z. lia. Qed.
Global Instance ts_lt_antisym : AntiSymm (=) ts_lt.
Proof. unfold ts_lt. intros x y H1 H2. lia. Qed.

Lemma insert_row_perm r df : insert_row r df ≡ₚ r :: df.
Proof.
  induction df as [| r' df IH]; simpl; [done |].
  destruct (fst r <=? fst r'); [done |].
  rewrite IH. apply perm_swap.
Qed.

Lemma sort_values_perm df : sort_values df ≡ₚ df.
Proof.
  induction df as [| r df IH]; simpl; [done |].
  by rewrite insert_row_perm, IH.
Qed.

Lemma sort_values_length df : length (sort_values df) = length df.
Proof. by rewrite sort_values_perm. Qed.

Lemma insert_row_sorted r df :
  StronglySorted ts_le df → StronglySorted ts_le (insert_row r df).
Proof.
  induction 1 as [| r' df Hs IH Hall]; simpl.
  - repeat constructor.
  - destruct (Z.leb_spec (fst r) (fst r')).
    + constructor; [by constructor |].
      constructor; [done |].
      eapply Forall_impl; [exact Hall |]. unfold ts_le. intros; simpl in *. lia.
    + constructor; [exact IH |].
      rewrite insert_row_perm. constructor; [unfold ts_le; lia | exact Hall].
Qed.

Lemma sort_values_sorted df : StronglySorted ts_le (sort_values df).
Proof.
  induction df as [| r df IH]; simpl; [constructor |].
  by apply insert_row_sorted.
Qed.

(** A frame already in strictly ascending order is left as it is. *)
Lemma sort_values_sorted_id df :
  StronglySorted ts_lt df → sort_values df = df.
Proof.
  induction 1 as [| r df Hs IH Hall]; simpl; [done |].
  rewrite IH. destruct Hall as [| r' df Hr _]; simpl; [done |].
  unfold ts_lt in Hr. destruct (Z.leb_spec (fst r) (fst r')); [done | lia].
Qed.

Lemma sorted_strict df :
  StronglySorted ts_le df → NoDup (timestamps df) → StronglySorted ts_lt df.
Proof.
  induction 1 as [| r df Hs IH Hall]; intros Hnd; [constructor |].
  unfold timestamps in Hnd. rewrite fmap_cons in Hnd.
  apply NoDup_cons in Hnd as [Hr Hnd].
  constructor; [by apply IH |].
  apply Forall_forall. intros r' Hr'.
  assert (fst r ≠ fst r').
  { intros E. apply Hr. rewrite E. apply list_elem_of_fmap. eauto. }
  rewrite Forall_forall in Hall. specialize (Hall r' Hr').
  unfold ts_le in Hall. unfold ts_lt. lia.
Qed.

Lemma sort_values_permutation w w' :
  w ≡ₚ w' → NoDup (timestamps w) → sort_values w = sort_values w'.
Proof.
  intros Hp Hnd.
  apply (StronglySorted_unique ts_lt).
  - apply sorted_strict; [apply sort_values_sorted |].
    unfold timestamps. by rewrite sort_values_perm.
  - apply sorted_strict; [apply sort_values_sorted |].
    unfold timestamps. by rewrite sort_values_perm, <- Hp.
  - by rewrite !sort_values_perm.
Qed.

(** For pairwise distinct timestamps there is one ascending arrangement of
    the rows: whatever an algorithm returns that sorts by timestamp, it is
    [sort_values]. *)
Lemma sort_values_unique (w w' : DataFrame) :
  w' ≡ₚ w → StronglySorted ts_le w' → NoDup (timestamps w) →
  w' = sort_values w.
Proof.
  intros Hp Hs Hnd.
  apply (StronglySorted_unique ts_lt).
  - apply sorted_strict; [done |]. unfold timestamps. by rewrite Hp.
  - apply sorted_strict; [apply sort_values_sorted |].
    unfold timestamps. by rewrite sort_values_perm.
  - by rewrite sort_values_perm.
Qed.

Lemma set_timestamp_id df :
  set_timestamp df (to_datetime (timestamps df)) = df.
Proof. unfold set_timestamp, to_datetime, timestamps, counts. apply zip_fst_snd. Qed.

(** ** The loop *)

Section loop.
Context (md : ModelData) (cl : string).

Lemma forecast_step_eq w :
  forecast_step w md cl =
  (p ← predict_next_hour_enhanced w md cl; Ok (p, next_working_data w p)).
Proof. reflexivity. Qed.

Lemma tail_length {A} n (l : list A) :
  (n <= length l)%nat → length (tail n l) = n.
Proof. intros H. unfold tail. rewrite length_drop. lia. Qed.

Lemma last_tail {A} n (l : list A) : (0 < n)%nat → last (tail n l) = last l.
Proof.
  intros H. unfold tail. rewrite !last_lookup, length_drop, lookup_drop.
  destruct (decide (length l = 0)%nat) as [E | E].
  - apply length_zero_iff_nil in E. by subst.
  - f_equal. lia.
Qed.

Lemma next_working_data_length w p :
  (3 <= length w)%nat → (3 <= length (next_working_data w p))%nat.
Proof.
  intros H. unfold next_working_data.
  destruct (Nat.ltb_spec 50 (length (w ++ [(timestamp p, predicted_arrivals p)]))).
  - rewrite tail_length; lia.
  - rewrite length_app. simpl. lia.
Qed.

Lemma next_working_data_last w p :
  last (timestamps (next_working_data w p)) = Some (timestamp p).
Proof.
  unfold next_working_data, timestamps.
  destruct (50 <? _)%nat.
  - unfold tail. rewrite fmap_drop.
    replace (length (w ++ [(timestamp p, predicted_arrivals p)]))
      with (length (fst <$> w ++ [(timestamp p, predicted_arrivals p)]))
      by apply length_fmap.
    change (drop _ ?l) with (tail 50 l). rewrite last_tail by lia.
    rewrite fmap_app. simpl. apply last_snoc.
  - rewrite fmap_app. simpl. apply last_snoc.
Qed.

Lemma forecast_loop_ok width hours : ∀ w acc t0,
  (3 <= length w)%nat →
  feature_cols md ⊆ computed_features →
  prediction_intervals md !! cl = Some width →
  last (timestamps w) = Some t0 →
  ∃ ps, forecast_loop hours w acc md cl = Ok (acc ++ ps)
        ∧ length ps = length hours
        ∧ ∀ (i : nat) p, ps !! i = Some p →
            timestamp p = t0 + (Z.of_nat i + 1) * one_hour.
Proof.
  induction hours as [| h hours IH]; intros w acc t0 Hlen Hsup Hcl Hlast.
  - exists []. simpl. rewrite app_nil_r. split; [done |]. split; [done |].
    intros i p Hi. rewrite lookup_nil in Hi. discriminate.
  - simpl. rewrite forecast_step_eq.
    destruct (predict_next_hour_enhanced_ok w md cl width Hlen Hsup Hcl)
      as (t0' & p & Hlast' & Hp & Hts).
    assert (t0' = t0) by congruence. subst t0'.
    rewrite Hp. cbn [mbind result_bind].
    destruct (IH (next_working_data w p) (acc ++ [p]) (timestamp p))
      as (ps & Hps & Hl & Hts');
      [by apply next_working_data_length | done | done
      | apply next_working_data_last |].
    exists (p :: ps). rewrite Hps, <- app_assoc. simpl.
    split; [done |]. split; [by rewrite Hl |].
    intros [| i] q Hq; simpl in Hq.
    + injection Hq as <-. rewrite Hts. lia.
    + rewrite (Hts' i q Hq), Hts. lia.
Qed.

Lemma forecast_loop_Forall (P : Prediction → Prop) hours : ∀ w acc res,
  (∀ w p, predict_next_hour_enhanced w md cl = Ok p → P p) →
  Forall P acc →
  forecast_loop hours w acc md cl = Ok res →
  Forall P res.
Proof.
  induction hours as [| h hours IH]; intros w acc res HP Hacc; simpl.
  - by intros [= <-].
  - rewrite forecast_step_eq.
    destruct (predict_next_hour_enhanced w md cl) as [p |] eqn:Hp;
      [| discriminate].
    cbn [mbind result_bind]. apply IH; [done |].
    apply Forall_app. split; [done |]. constructor; [eauto | constructor].
Qed.

Lemma predict_next_6_hours_short w :
  (length w < 3)%nat → predict_next_6_hours w md cl = Raise IndexError.
Proof.
  intros H. unfold predict_next_6_hours. rewrite set_timestamp_id.
  destruct (iloc_neg (timestamps (sort_values w)) 1) as [t |] eqn:E.
  - cbn [mbind result_bind]. unfold range_1_7. simpl.
    rewrite forecast_step_eq, predict_next_hour_enhanced_short; [done |].
    by rewrite sort_values_length.
  - cbn [mbind result_bind]. f_equal.
    unfold iloc_neg in E.
    repeat match type of E with
      | context [if ?b then _ else _] => destruct b
      | context [match ?o with Some _ => _ | None => _ end] => destruct o
      end; congruence.
Qed.

End loop.

(** ** The store *)

Section store.
Context (md : ModelData) (cl : string).

Lemma fresh_not_allocated (m : gmap nat DataFrame) : m !! fresh (dom m) = None.
Proof. apply not_elem_of_dom, is_fresh. Qed.

Lemma alloc_subseteq (m : gmap nat DataFrame) df :
  m ⊆ <[fresh (dom m) := df]> m.
Proof. apply insert_subseteq, fresh_not_allocated. Qed.

Lemma alloc_lookup_new (m : gmap nat DataFrame) df :
  <[fresh (dom m) := df]> m !! fresh (dom m) = Some df.
Proof. apply lookup_insert_eq. Qed.

Lemma alloc_lookup_old (m : gmap nat DataFrame) df l :
  is_Some (m !! l) → <[fresh (dom m) := df]> m !! l = m !! l.
Proof.
  intros [x Hx]. apply lookup_insert_ne. intros E.
  rewrite <- E, fresh_not_allocated in Hx. discriminate.
Qed.

Lemma bind_alloc {B} df (k : nat → Store.M B) s :
  (Store.alloc df ≫= k) s =
  k (fresh (dom (Store.objects s)))
    {| Store.objects := <[fresh (dom (Store.objects s)) := df]> (Store.objects s);
       Store.mutated := Store.mutated s |}.
Proof. reflexivity. Qed.

Lemma bind_read {B} l (k : DataFrame → Store.M B) s :
  (Store.read l ≫= k) s = k (default [] (Store.objects s !! l)) s.
Proof. reflexivity. Qed.

Lemma bind_write {B} l df (k : unit → Store.M B) s :
  (Store.write l df ≫= k) s =
  k () {| Store.objects := <[l := df]> (Store.objects s);
          Store.mutated := l :: Store.mutated s |}.
Proof. reflexivity. Qed.

Lemma bind_mret {A B} (a : A) (k : A → Store.M B) s : (mret a ≫= k) s = k a s.
Proof. reflexivity. Qed.

Lemma bind_lift {A B} (r : result A) (k : A → Store.M B) s :
  (Store.lift r ≫= k) s =
  match r with Ok a => k a s | Raise e => (Raise e, s) end.
Proof. by destruct r. Qed.

Lemma bind_predict {B} wd (k : Prediction → Store.M B) s :
  (Store.predict_next_hour_enhanced wd md cl ≫= k) s =
  match predict_next_hour_enhanced (default [] (Store.objects s !! wd)) md cl with
  | Ok p => k p s
  | Raise e => (Raise e, s)
  end.
Proof.
  unfold Store.predict_next_hour_enhanced, mbind, Store.M_bind, Store.read,
    Store.lift.
  by destruct (predict_next_hour_enhanced _ md cl).
Qed.

Lemma store_forecast_loop_frame hours : ∀ wd acc s,
  is_Some (Store.objects s !! wd) →
  ∃ s', Store.forecast_loop hours wd acc md cl s =
          (forecast_loop hours (default [] (Store.objects s !! wd)) acc md cl, s')
        ∧ Store.objects s ⊆ Store.objects s'
        ∧ Store.mutated s' = Store.mutated s.
Proof.
  induction hours as [| h hours IH]; intros wd acc s Hwd.
  - exists s. done.
  - cbn [Store.forecast_loop forecast_loop].
    rewrite forecast_step_eq, bind_predict.
    destruct (predict_next_hour_enhanced (default [] (Store.objects s !! wd)) md cl)
      as [p | e] eqn:Hp.
    2: { exists s. done. }
    cbn [mbind result_bind].
    rewrite bind_alloc, bind_read, bind_read, bind_alloc, bind_read.
    cbn [Store.objects Store.mutated].
    rewrite !alloc_lookup_new. cbn [default from_option id].
    rewrite alloc_lookup_old by done.
    set (df := default [] (Store.objects s !! wd)).
    match goal with
    | |- context [<[?l := ?x]> (Store.objects s)] =>
        set (m1 := <[l := x]> (Store.objects s))
    end.
    set (l2 := fresh (dom m1)).
    set (w1 := df ++ [(timestamp p, predicted_arrivals p)]).
    assert (H1 : Store.objects s ⊆ m1) by apply alloc_subseteq.
    assert (H2 : m1 ⊆ <[l2 := w1]> m1) by apply alloc_subseteq.
    unfold next_working_data. fold w1.
    destruct (50 <? length w1)%nat.
    + cbv iota. rewrite bind_alloc. cbn [Store.objects Store.mutated].
      set (m2 := <[l2 := w1]> m1) in *. set (l3 := fresh (dom m2)).
      destruct (IH l3 (acc ++ [p])
                  {| Store.objects := <[l3 := tail 50 w1]> m2;
                     Store.mutated := Store.mutated s |})
        as (s' & E & Hsub & Hmut).
      { cbn. rewrite lookup_insert_eq. eauto. }
      cbn [Store.objects Store.mutated] in *.
      rewrite lookup_insert_eq in E. cbn [default from_option id] in E.
      exists s'. split; [exact E |]. split; [| exact Hmut].
      etrans; [exact H1 |]. etrans; [exact H2 |].
      etrans; [| exact Hsub]. apply alloc_subseteq.
    + cbv iota. rewrite bind_mret.
      destruct (IH l2 (acc ++ [p])
                  {| Store.objects := <[l2 := w1]> m1;
                     Store.mutated := Store.mutated s |})
        as (s' & E & Hsub & Hmut).
      { cbn. rewrite lookup_insert_eq. eauto. }
      cbn [Store.objects Store.mutated] in *.
      rewrite lookup_insert_eq in E. cbn [default from_option id] in E.
      exists s'. split; [exact E |]. split; [| exact Hmut].
      etrans; [exact H1 |]. etrans; [exact H2 |]. exact Hsub.
Qed.

Lemma store_predict_next_6_hours_frame recent_data df s :
  Store.objects s !! recent_data = Some df →
  ∃ s', Store.predict_next_6_hours recent_data md cl s =
          (predict_next_6_hours df md cl, s')
        ∧ Store.objects s ⊆ Store.objects s'
        ∧ Store.mutated s' = fresh (dom (Store.objects s)) :: Store.mutated s.
Proof.
  intros Hr. unfold Store.predict_next_6_hours, predict_next_6_hours.
  rewrite bind_read, bind_alloc, bind_read, bind_write, bind_read, bind_alloc,
    bind_read, bind_lift.
  cbn [Store.objects Store.mutated].
  rewrite Hr. cbn [default from_option id].
  rewrite !lookup_insert_eq. cbn [default from_option id].
  rewrite insert_insert_eq, !set_timestamp_id.
  set (l0 := fresh (dom (Store.objects s))).
  set (m1 := <[l0 := df]> (Store.objects s)).
  set (l1 := fresh (dom m1)).
  assert (H1 : Store.objects s ⊆ m1) by apply alloc_subseteq.
  assert (H2 : m1 ⊆ <[l1 := sort_values df]> m1) by apply alloc_subseteq.
  destruct (iloc_neg (timestamps (sort_values df)) 1) as [t | e].
  - cbn [mbind result_bind].
    destruct (store_forecast_loop_frame range_1_7 l1 []
                {| Store.objects := <[l1 := sort_values df]> m1;
                   Store.mutated := l0 :: Store.mutated s |})
      as (s' & E & Hsub & Hmut).
    { cbn. rewrite lookup_insert_eq. eauto. }
    cbn [Store.objects Store.mutated] in *.
    rewrite lookup_insert_eq in E. cbn [default from_option id] in E.
    exists s'. split; [exact E |]. split; [| exact Hmut].
    etrans; [exact H1 |]. etrans; [exact H2 |]. exact Hsub.
  - eexists. split; [reflexivity |]. cbn [Store.objects Store.mutated].
    split; [| reflexivity]. etrans; [exact H1 |]. exact H2.
Qed.

End store.

(** ** The end-to-end scenario (C1) *)

Lemma md_example_supported : feature_cols md_example ⊆ computed_features.
Proof.
  vm_compute. intros x Hx.
  repeat (apply elem_of_cons in Hx as [-> | Hx]; [set_solver |]).
  by apply elem_of_nil in Hx.
Qed.

Lemma py_max0_pos (x : Q) : (0 < x)%Q → py_max0 x = x.
Proof. intros H. unfold py_max0. apply Qltb_lt in H. by rewrite H. Qed.

Lemma forecast_loop_cons h hours w acc md cl p :
  predict_next_hour_enhanced w md cl = Ok p →
  forecast_loop (h :: hours) w acc md cl =
  forecast_loop hours (next_working_data w p) (acc ++ [p]) md cl.
Proof.
  intros H. cbn [forecast_loop]. rewrite forecast_step_eq, H. reflexivity.
Qed.

(** C1, as stated, fails: Python rounds the tie 6.5 to the even 6, and the
    ties 4.5 and 8.5 to 4 and 8. *)
Lemma first_step_scenario_not_7_5_9 :
  ∃ p w', forecast_step w_example md_example "90%" = Ok (p, w')
    ∧ (predicted_arrivals p, lower_bound p, upper_bound p) = (6, 4, 8)
    ∧ predicted_arrivals p ≠ 7 ∧ lower_bound p ≠ 5 ∧ upper_bound p ≠ 9
    ∧ w' = w_example ++ [(one_hour, 6)]
    ∧ w' ≠ w_example ++ [(one_hour, 7)].
Proof.
  eexists _, _. split; [vm_compute; reflexivity |].
  repeat split; try reflexivity; cbn; discriminate.
Qed.

(** C1 (amended): in the scenario the first step reports 6 with bounds 4
    and 8, and the working data handed to step 2 is the window extended with
    (t+1h, 6); in general the reported count is the clamped raw prediction
    rounded to a nearest integer, and the bounds are computed from the
    unrounded raw value. *)
Theorem first_step_scenario (t : Timestamp) (md : ModelData) (width : Q) :
  feature_cols md ⊆ computed_features →
  prediction_intervals md !! "90%" = Some width → (width == 2)%Q →
  (∀ X, (model md X == 13 # 2)%Q) →
  let w : DataFrame := [(t - 2 * one_hour, 5); (t - one_hour, 7); (t, 6)] in
  (∃ p ps,
      forecast_step w md "90%" = Ok (p, w ++ [(t + one_hour, 6)])
      ∧ timestamp p = t + one_hour
      ∧ predicted_arrivals p = 6 ∧ lower_bound p = 4 ∧ upper_bound p = 8
      ∧ predict_next_6_hours w md "90%" = Ok (p :: ps))
  ∧ (∀ recent_data md' cl p,
      predict_next_hour_enhanced recent_data md' cl = Ok p →
      ∃ X width',
        prediction_intervals md' !! cl = Some width'
        ∧ let raw := py_max0 (model md' X) in
          predicted_arrivals p = py_round raw
          ∧ (inject_Z (predicted_arrivals p) - (1 # 2) <= raw)%Q
          ∧ (raw <= inject_Z (predicted_arrivals p) + (1 # 2))%Q
          ∧ lower_bound p = Z.max 0 (py_round (raw - width'))
          ∧ upper_bound p = py_round (raw + width')).
Proof.
  intros Hsup Hw Hw2 Hmodel w. split.
  - destruct (predict_next_hour_enhanced_ok w md "90%" width)
      as (t0 & p & Hlast & Hp & Hts); [simpl; lia | done | done |].
    injection Hlast as <-.
    destruct (predict_next_hour_enhanced_inv _ _ _ _ Hp)
      as (t' & f & X & width' & _ & _ & Hw' & _ & Hpred & Hlo & Hup & _).
    assert (width' = width) by congruence. subst width'.
    assert (Hraw : py_max0 (model md X) = model md X).
    { apply py_max0_pos. rewrite (Hmodel X). reflexivity. }
    rewrite Hraw in *.
    assert (E6 : predicted_arrivals p = 6).
    { rewrite Hpred. rewrite (py_round_proper _ (13 # 2)) by apply Hmodel.
      reflexivity. }
    assert (E4 : lower_bound p = 4).
    { rewrite Hlo. rewrite (py_round_proper _ (9 # 2)); [reflexivity |].
      rewrite (Hmodel X), Hw2. reflexivity. }
    assert (E8 : upper_bound p = 8).
    { rewrite Hup. rewrite (py_round_proper _ (17 # 2)); [reflexivity |].
      rewrite (Hmodel X), Hw2. reflexivity. }
    assert (Hnext : next_working_data w p = w ++ [(t + one_hour, 6)]).
    { unfold next_working_data. rewrite Hts, E6. reflexivity. }
    assert (Hsorted : sort_values w = w).
    { apply sort_values_sorted_id. unfold ts_lt, w.
      repeat first [constructor | progress simpl | unfold one_hour; lia]. }
    destruct (forecast_loop_ok md "90%" width [2; 3; 4; 5; 6]
                (next_working_data w p) [p] (timestamp p))
      as (ps & Hps & _);
      [apply next_working_data_length; simpl; lia | done | done
      | apply next_working_data_last |].
    exists p, ps. split; [by rewrite forecast_step_eq, Hp, <- Hnext |].
    repeat split; try done.
    unfold predict_next_6_hours. rewrite set_timestamp_id, Hsorted.
    cbn [mbind result_bind iloc_neg]. simpl iloc_neg. cbn [mbind result_bind].
    unfold range_1_7. rewrite (forecast_loop_cons _ _ _ _ _ _ _ Hp).
    exact Hps.
  - intros recent_data md' cl p Hp.
    destruct (predict_next_hour_enhanced_inv _ _ _ _ Hp)
      as (t' & f & X & width' & _ & _ & Hw' & _ & Hpred & Hlo & Hup & _).
    exists X, width'. split; [done |]. cbn zeta.
    rewrite Hpred. pose proof (py_round_near (py_max0 (model md' X))) as [? ?].
    repeat split; done.
Qed.

Lemma first_step_scenario_witness :
  ∃ p ps,
    forecast_step w_example md_example "90%" = Ok (p, w_example ++ [(one_hour, 6)])
    ∧ predicted_arrivals p = 6 ∧ lower_bound p = 4 ∧ upper_bound p = 8
    ∧ predict_next_6_hours w_example md_example "90%" = Ok (p :: ps).
Proof.
  destruct (first_step_scenario 0 md_example 2) as [(p & ps & H1 & _ & H2 & H3 & H4 & H5) _].
  - exact md_example_supported.
  - reflexivity.
  - reflexivity.
  - intros X. reflexivity.
  - exists p, ps. repeat split; assumption.
Defined.

(** ** Six hourly points (C3) *)

Lemma sorted_last_max (df : DataFrame) t_last :
  StronglySorted ts_le df → last (timestamps df) = Some t_last →
  ∀ t, t ∈ timestamps df → t <= t_last.
Proof.
  induction 1 as [| r df Hs IH Hall]; intros Hlast t Ht.
  - by apply elem_of_nil in Ht.
  - unfold timestamps in *. rewrite fmap_cons in *.
    destruct df as [| r' df].
    + simpl in Hlast. injection Hlast as <-. apply list_elem_of_singleton in Ht. lia.
    + rewrite fmap_cons, last_cons_cons in Hlast. rewrite <- fmap_cons in Hlast.
      apply elem_of_cons in Ht as [-> | Ht]; [| by apply IH].
      rewrite Forall_forall in Hall.
      assert (Hr' : ts_le r r') by (apply Hall; left).
      unfold ts_le in Hr'. specialize (IH Hlast (fst r')).
      etrans; [exact Hr' |]. apply IH. left.
Qed.

(** C3, as stated, fails for an artifact that names a feature the builder
    does not compute: selecting the model's columns raises, and no point is
    returned although the window has 3 entries and the label is present. *)
Lemma forecast_unknown_feature_raises :
  (3 <= length w_example)%nat
  ∧ is_Some (prediction_intervals md_weather !! "90%")
  ∧ predict_next_6_hours w_example md_weather "90%"
    = Raise (KeyError_not_in_index ["weather"]).
Proof. split; [simpl; lia |]. split; [by eexists | by vm_compute]. Qed.

(** C3 (amended): for a window of at least 3 entries and an artifact that
    has the requested label and names only features the builder computes,
    the forecaster returns exactly 6 points; point i (from 0) is stamped i+1
    hours after the latest input observation, which is the last row when the
    input is ascending; so consecutive points are exactly one hour apart and
    strictly increasing. *)
Theorem forecast_six_hourly_points (w : DataFrame) (md : ModelData)
    (cl : string) :
  (3 <= length w)%nat →
  is_Some (prediction_intervals md !! cl) →
  feature_cols md ⊆ computed_features →
  ∃ t_last ps,
    t_last ∈ timestamps w
    ∧ (∀ t, t ∈ timestamps w → t <= t_last)
    ∧ (StronglySorted ts_le w → last (timestamps w) = Some t_last)
    ∧ predict_next_6_hours w md cl = Ok ps
    ∧ length ps = 6%nat
    ∧ (∀ (i : nat) p, ps !! i = Some p →
         timestamp p = t_last + (Z.of_nat i + 1) * one_hour)
    ∧ (∀ (i : nat) p q, ps !! i = Some p → ps !! S i = Some q →
         timestamp q = timestamp p + one_hour ∧ timestamp p < timestamp q).
Proof.
  intros Hlen [width Hcl] Hsup.
  unfold predict_next_6_hours. rewrite set_timestamp_id.
  destruct (iloc_neg_ok (timestamps (sort_values w)) 1) as (t_last & E & _).
  { rewrite length_timestamps, sort_values_length. lia. }
  rewrite E. cbn [mbind result_bind].
  apply iloc_neg_1_last in E.
  destruct (forecast_loop_ok md cl width range_1_7 (sort_values w) [] t_last)
    as (ps & Hps & Hl & Hts); [by rewrite sort_values_length | done.. |].
  exists t_last, ps.
  assert (Hperm : timestamps (sort_values w) ≡ₚ timestamps w).
  { unfold timestamps. by rewrite sort_values_perm. }
  split.
  { rewrite <- Hperm. rewrite last_lookup in E.
    by eapply list_elem_of_lookup_2. }
  split.
  { intros t Ht. rewrite <- Hperm in Ht.
    eapply sorted_last_max; [apply sort_values_sorted | done | done]. }
  split.
  { intros Hs.
    destruct (last (timestamps w)) as [t' |] eqn:E'.
    2: { apply last_None in E'. apply (f_equal length) in E'.
         rewrite length_timestamps in E'. simpl in E'. lia. }
    f_equal. apply Z.le_antisymm.
    - eapply sorted_last_max; [apply sort_values_sorted | exact E |].
      rewrite Hperm, last_lookup in *. by eapply list_elem_of_lookup_2.
    - eapply sorted_last_max; [exact Hs | exact E' |].
      rewrite <- Hperm. rewrite last_lookup in E.
      by eapply list_elem_of_lookup_2. }
  split; [done |]. split; [done |]. split; [done |].
  intros i p q Hp Hq.
  rewrite (Hts _ _ Hp), (Hts _ _ Hq). unfold one_hour. lia.
Qed.

Lemma forecast_six_hourly_points_witness :
  ∃ ps, predict_next_6_hours w_example md_example "90%" = Ok ps
        ∧ length ps = 6%nat
        ∧ ∀ (i : nat) p, ps !! i = Some p →
            timestamp p = 0 + (Z.of_nat i + 1) * one_hour.
Proof.
  destruct (forecast_six_hourly_points w_example md_example "90%")
    as (t_last & ps & _ & _ & Hlast & Hps & Hlen & Hts & _).
  - simpl. lia.
  - by eexists.
  - exact md_example_supported.
  - assert (Hs : StronglySorted ts_le w_example).
    { unfold ts_le, w_example.
      repeat first [constructor | progress simpl | unfold one_hour; lia]. }
    specialize (Hlast Hs). injection Hlast as <-.
    exists ps. repeat split; assumption.
Defined.

(** ** Ordered, non-negative bounds (C4) *)

Lemma predict_next_hour_enhanced_bounds w md cl p :
  map_Forall (fun _ v => (0 <= v)%Q) (prediction_intervals md) →
  predict_next_hour_enhanced w md cl = Ok p → bounds_ordered p.
Proof.
  intros Hnn Hp.
  destruct (predict_next_hour_enhanced_inv _ _ _ _ Hp)
    as (t' & f & X & width & _ & _ & Hw & _ & Hpred & Hlo & Hup & _).
  specialize (Hnn _ _ Hw). cbn beta in Hnn.
  pose proof (py_max0_nonneg (model md X)) as Hraw.
  set (raw := py_max0 (model md X)) in *.
  assert (H1 : py_round (raw - width) <= py_round raw)
    by (apply py_round_mono; lra).
  assert (H2 : py_round raw <= py_round (raw + width))
    by (apply py_round_mono; lra).
  assert (H3 : 0 <= py_round raw) by (by apply py_round_nonneg).
  unfold bounds_ordered. rewrite Hpred, Hlo, Hup. lia.
Qed.

(** C4: with non-negative interval widths, every point produced, by the
    single-step predictor or by the forecaster, has
    0 <= lower_bound <= predicted_arrivals <= upper_bound. *)
Theorem forecast_bounds_ordered (w : DataFrame) (md : ModelData) (cl : string) :
  map_Forall (fun _ v => (0 <= v)%Q) (prediction_intervals md) →
  (∀ p, predict_next_hour_enhanced w md cl = Ok p → bounds_ordered p)
  ∧ (∀ ps, predict_next_6_hours w md cl = Ok ps → Forall bounds_ordered ps).
Proof.
  intros Hnn. split.
  - intros p. by apply predict_next_hour_enhanced_bounds.
  - intros ps. unfold predict_next_6_hours.
    destruct (iloc_neg _ 1); [| discriminate]. cbn [mbind result_bind].
    apply forecast_loop_Forall; [| constructor].
    intros w' p. by apply predict_next_hour_enhanced_bounds.
Qed.

Lemma forecast_bounds_ordered_witness :
  ∃ ps, predict_next_6_hours w_example md_example "90%" = Ok ps
        ∧ Forall bounds_ordered ps.
Proof.
  assert (Hnn : map_Forall (fun _ v => (0 <= v)%Q)
                  (prediction_intervals md_example)).
  { intros k v. cbn [prediction_intervals md_example].
    repeat (rewrite lookup_insert; case_decide;
            [intros [= <-]; vm_compute; discriminate |]).
    intros [_ <-]%lookup_singleton_Some. vm_compute. discriminate. }
  destruct (predict_next_6_hours w_example md_example "90%") as [ps |] eqn:E;
    [| vm_compute in E; discriminate].
  exists ps. split; [reflexivity |].
  by apply (forecast_bounds_ordered w_example md_example "90%" Hnn).
Defined.

(** ** An unknown interval label (C5) *)

(** C5, as stated, fails for an artifact that names a feature the builder
    does not compute: with "80%" absent from the widths, the predictor
    raises on the column selection, before it looks the label up. *)
Lemma unknown_label_unknown_feature :
  (3 <= length w_example)%nat
  ∧ prediction_intervals md_weather !! "80%" = None
  ∧ predict_next_hour_enhanced w_example md_weather "80%"
    = Raise (KeyError_not_in_index ["weather"])
  ∧ predict_next_hour_enhanced w_example md_weather "80%"
    ≠ Raise (KeyError "80%").
Proof.
  split; [simpl; lia |]. split; [by vm_compute |].
  split; [by vm_compute | vm_compute; discriminate].
Qed.

(** C5 (amended): for a window of at least 3 entries, the predictor raises
    the [KeyError] of the requested label only if the label is not a key of
    the interval widths; and when the artifact names only features the
    builder computes, it raises it whenever the label is not a key. *)
Theorem unknown_interval_label (w : DataFrame) (md : ModelData) (cl : string) :
  (3 <= length w)%nat →
  (predict_next_hour_enhanced w md cl = Raise (KeyError cl) →
     prediction_intervals md !! cl = None)
  ∧ (feature_cols md ⊆ computed_features →
       (predict_next_hour_enhanced w md cl = Raise (KeyError cl)
        ↔ prediction_intervals md !! cl = None)).
Proof.
  intros Hlen. split.
  - intros H. by apply predict_next_hour_enhanced_KeyError in H as [_ H].
  - intros Hsup. split.
    + intros H. by apply predict_next_hour_enhanced_KeyError in H as [_ H].
    + by apply predict_next_hour_enhanced_unknown_label.
Qed.

(** Asking for "80%" of an artifact that has "90%", "95%" and "99%". *)
Lemma unknown_interval_label_witness :
  dom (prediction_intervals md_example) = {[ "90%"; "95%"; "99%" ]}
  ∧ predict_next_hour_enhanced w_example md_example "80%"
    = Raise (KeyError "80%").
Proof.
  split.
  - cbn [prediction_intervals md_example].
    rewrite !dom_insert_L, dom_singleton_L. set_solver.
  - apply (unknown_interval_label w_example md_example "80%").
    + simpl. lia.
    + exact md_example_supported.
    + by vm_compute.
Defined.

(** ** Too few observations (C6) *)

(** C6: with fewer than 3 rows the single-step predictor raises the
    out-of-bounds [IndexError] of its [.iloc] look-ups, and so does the
    forecaster, which returns no point. *)
Theorem insufficient_data (w : DataFrame) (md : ModelData) (cl : string) :
  (length w < 3)%nat →
  predict_next_hour_enhanced w md cl = Raise IndexError
  ∧ predict_next_6_hours w md cl = Raise IndexError
  ∧ (∀ ps, predict_next_6_hours w md cl ≠ Ok ps).
Proof.
  intros H.
  pose proof (predict_next_6_hours_short md cl w H) as H6.
  split; [by apply predict_next_hour_enhanced_short |].
  split; [done |]. intros ps. by rewrite H6.
Qed.

Lemma insufficient_data_witness :
  predict_next_6_hours [(0, 5); (one_hour, 7)] md_example "90%"
  = Raise IndexError.
Proof.
  apply (insufficient_data [(0, 5); (one_hour, 7)] md_example "90%").
  simpl. lia.
Defined.

(** ** The same-hour-yesterday feature (C7, C10) *)

(** The mean of a column that is not empty, times the number of its
    entries, is their sum. *)
Lemma mean_spec (l : list Z) :
  l ≠ [] →
  (mean l * inject_Z (Z.of_nat (length l)) == inject_Z (foldr Z.add 0%Z l))%Q.
Proof.
  intros Hl. unfold mean, Zsum. field.
  intros H. unfold Qeq in H. simpl in H. destruct l; [done | simpl in H; lia].
Qed.

(** C7: with at least 3 and fewer than 24 rows, and the feature named by
    the artifact, the builder sets 'same_hour_yesterday' to the arithmetic
    mean of all counts: the value which, multiplied by the number of rows,
    is the sum of the counts.  For the counts 2, 4, 6, 8, 10 that is 6. *)
Theorem same_hour_yesterday_fallback (w : DataFrame) (md : ModelData) :
  (3 <= length w < 24)%nat →
  "same_hour_yesterday" ∈ feature_cols md →
  ∃ t f v,
    build_features w md = Ok (t, f)
    ∧ f !! "same_hour_yesterday" = Some v
    ∧ (v * inject_Z (Z.of_nat (length w))
       == inject_Z (foldr Z.add 0%Z (snd <$> w)))%Q
    ∧ (snd <$> w = [2; 4; 6; 8; 10] → (v == 6)%Q).
Proof.
  intros [Hlo Hhi] Hin.
  destruct (build_features_ok w md Hlo) as (t0 & f & _ & Hf).
  exists (t0 + one_hour), f, (mean (counts w)). split; [done |].
  apply build_features_inv in Hf
    as (t1 & l1 & l2 & l3 & g & _ & _ & _ & _ & _ & _ & _ & Hshy).
  rewrite (has_col_true _ _ Hin) in Hshy.
  destruct (Nat.leb_spec 24 (length w)); [lia |].
  split; [done |].
  assert (Hmean : (mean (counts w) * inject_Z (Z.of_nat (length w))
                   == inject_Z (foldr Z.add 0%Z (snd <$> w)))%Q).
  { rewrite <- (length_counts w). apply mean_spec.
    intros E. apply (f_equal length) in E. rewrite length_counts in E.
    simpl in E. lia. }
  split; [exact Hmean |].
  intros E. rewrite E in Hmean.
  assert (Hl : length w = 5%nat).
  { rewrite <- (length_fmap snd w), E. reflexivity. }
  rewrite Hl in Hmean.
  change (mean (counts w) * 5 == 30)%Q in Hmean. lra.
Qed.

Lemma same_hour_yesterday_fallback_witness :
  ∃ t f v,
    build_features w_five md_example = Ok (t, f)
    ∧ f !! "same_hour_yesterday" = Some v
    ∧ (v * 5 == 2 + 4 + 6 + 8 + 10)%Q ∧ (v == 6)%Q.
Proof.
  destruct (same_hour_yesterday_fallback w_five md_example)
    as (t & f & v & Hf & Hv & Hm & H6).
  - simpl. lia.
  - cbn [feature_cols md_example]. set_solver.
  - exists t, f, v. split; [exact Hf |]. split; [exact Hv |].
    split; [| apply H6; reflexivity].
    change (v * 5 == 30)%Q in Hm. lra.
Defined.

Lemma spaced_span (col : list Timestamp) (i : nat) (k : nat) : ∀ a b,
  spaced_from i col →
  col !! i = Some a → col !! (i + k)%nat = Some b →
  a + Z.of_nat k * one_hour <= b
  ∧ (b = a + Z.of_nat k * one_hour →
     ∀ (j : nat) x y, (i <= j < i + k)%nat →
       col !! j = Some x → col !! S j = Some y → y = x + one_hour).
Proof.
  induction k as [| k IH]; intros a b Hsp Ha Hb.
  - rewrite Nat.add_0_r in Hb. assert (b = a) by congruence. subst b.
    split; [lia |]. intros _ j x y Hj. lia.
  - destruct (col !! (i + k)%nat) as [c |] eqn:Hc.
    2: { apply lookup_ge_None in Hc. apply lookup_lt_Some in Hb. lia. }
    destruct (IH a c Hsp Ha eq_refl) as [Hle Heq].
    replace (i + S k)%nat with (S (i + k)) in Hb by lia.
    pose proof (Hsp (i + k)%nat c b ltac:(lia) Hc Hb) as Hstep.
    split; [lia |]. intros Hbe j x y Hj Hx Hy.
    assert (Hc' : c = a + Z.of_nat k * one_hour) by lia.
    destruct (decide (j = i + k)%nat) as [-> | Hne].
    + assert (x = c) by congruence. assert (y = b) by congruence. lia.
    + apply (Heq Hc' j x y); [lia | done | done].
Qed.

Lemma hourly_span (col : list Timestamp) (i : nat) (k : nat) : ∀ a b,
  hourly_from i col →
  col !! i = Some a → col !! (i + k)%nat = Some b →
  b = a + Z.of_nat k * one_hour.
Proof.
  induction k as [| k IH]; intros a b Hh Ha Hb.
  - rewrite Nat.add_0_r in Hb. assert (b = a) by congruence. lia.
  - destruct (col !! (i + k)%nat) as [c |] eqn:Hc.
    2: { apply lookup_ge_None in Hc. apply lookup_lt_Some in Hb. lia. }
    replace (i + S k)%nat with (S (i + k)) in Hb by lia.
    rewrite (Hh (i + k)%nat c b ltac:(lia) Hc Hb), (IH a c Hh Ha eq_refl). lia.
Qed.

(** C10, as stated, fails in its 'only when': the 24 rows of [w_uneven] are
    not consecutive hourly observations, the second being half an hour late,
    and still the row at index len-24, whose count the builder takes, is the
    one stamped 24 hours before the target. *)
Lemma same_hour_yesterday_not_only_hourly :
  (24 <= length w_uneven)%nat
  ∧ "same_hour_yesterday" ∈ feature_cols md_example
  ∧ (∃ t f, build_features w_uneven md_example = Ok (t, f)
       ∧ f !! "same_hour_yesterday" = Some (inject_Z 1)
       ∧ w_uneven !! (length w_uneven - 24)%nat = Some (t - 24 * one_hour, 1))
  ∧ ¬ hourly_from (length w_uneven - 24) (timestamps w_uneven).
Proof.
  assert (Hin : "same_hour_yesterday" ∈ feature_cols md_example)
    by (apply (bool_decide_unpack _); by vm_compute).
  split; [change (length w_uneven) with 24%nat; lia |].
  split; [exact Hin |]. split.
  - destruct (build_features_ok w_uneven md_example) as (t0 & f & Hlast & Hf);
      [change (length w_uneven) with 24%nat; lia |].
    assert (t0 = 23 * one_hour)
      by (vm_compute in Hlast; injection Hlast as <-; reflexivity).
    subst t0. exists (23 * one_hour + one_hour), f.
    split; [exact Hf |].
    apply build_features_inv in Hf
      as (t1 & l1 & l2 & l3 & g & _ & _ & _ & _ & _ & _ & _ & Hc).
    rewrite (has_col_true _ _ Hin) in Hc.
    change (24 <=? length w_uneven)%nat with true in Hc.
    destruct Hc as (c & Hc1 & Hc2).
    assert (c = 1) by (vm_compute in Hc1; congruence). subst c.
    split; [exact Hc2 | reflexivity].
  - intros Hh.
    specialize (Hh 0%nat 0 (one_hour + one_hour / 2) ltac:(vm_compute; lia)
                  eq_refl eq_refl).
    vm_compute in Hh. discriminate Hh.
Qed.

(** C10 (amended): with at least 24 rows, and the feature named by the
    artifact, the builder sets 'same_hour_yesterday' to the count at index
    len-24, whatever the timestamps are.  When the last 24 rows are
    consecutive hourly observations that row is the one stamped 24 hours
    before the target; and for rows at least an hour apart it is that row
    only then. *)
Theorem same_hour_yesterday_positional (w : DataFrame) (md : ModelData) :
  (24 <= length w)%nat →
  "same_hour_yesterday" ∈ feature_cols md →
  ∃ t f c,
    build_features w md = Ok (t, f)
    ∧ counts w !! (length w - 24)%nat = Some c
    ∧ f !! "same_hour_yesterday" = Some (inject_Z c)
    ∧ (∀ w' : DataFrame, counts w' = counts w →
         ∃ t' f', build_features w' md = Ok (t', f')
                  ∧ f' !! "same_hour_yesterday" = Some (inject_Z c))
    ∧ (hourly_from (length w - 24) (timestamps w) →
         w !! (length w - 24)%nat = Some (t - 24 * one_hour, c))
    ∧ (spaced_from (length w - 24) (timestamps w) →
         w !! (length w - 24)%nat = Some (t - 24 * one_hour, c) →
         hourly_from (length w - 24) (timestamps w)).
Proof.
  intros Hlen Hin.
  assert (Hshy : ∀ w' : DataFrame, (24 <= length w')%nat →
            ∃ t0 f c, last (timestamps w') = Some t0
              ∧ build_features w' md = Ok (t0 + one_hour, f)
              ∧ counts w' !! (length w' - 24)%nat = Some c
              ∧ f !! "same_hour_yesterday" = Some (inject_Z c)).
  { intros w' Hlen'.
    destruct (build_features_ok w' md) as (t0 & f & Hlast & Hf); [lia |].
    pose proof Hf as Hinv. apply build_features_inv in Hinv
      as (t1 & l1 & l2 & l3 & g & _ & _ & _ & _ & _ & _ & _ & Hc).
    rewrite (has_col_true _ _ Hin) in Hc.
    destruct (Nat.leb_spec 24 (length w')); [| lia].
    destruct Hc as (c & Hc1 & Hc2). by exists t0, f, c. }
  destruct (Hshy w Hlen) as (t0 & f & c & Hlast & Hf & Hc & Hv).
  exists (t0 + one_hour), f, c.
  split; [done |]. split; [done |]. split; [done |].
  assert (Hrow : ∀ a, timestamps w !! (length w - 24)%nat = Some a →
                      w !! (length w - 24)%nat = Some (a, c)).
  { intros a Ha. unfold timestamps, counts in *.
    rewrite list_lookup_fmap in Ha, Hc.
    destruct (w !! (length w - 24)%nat) as [[x y] |]; [| discriminate].
    simpl in Ha, Hc. congruence. }
  assert (Hlast' : timestamps w !! (length w - 24 + 23)%nat = Some t0).
  { rewrite last_lookup, length_timestamps in Hlast.
    by replace (length w - 24 + 23)%nat with (pred (length w)) by lia. }
  split; [| split].
  - intros w' Hw'.
    assert (Hlen' : length w' = length w)
      by (by rewrite <- (length_counts w'), Hw', length_counts).
    destruct (Hshy w') as (t0' & f' & c' & _ & Hf' & Hc' & Hv'); [lia |].
    rewrite Hw', Hlen' in Hc'. assert (c' = c) by congruence. subst c'.
    by exists (t0' + one_hour), f'.
  - intros Hh.
    destruct (timestamps w !! (length w - 24)%nat) as [a |] eqn:Ha.
    2: { apply lookup_ge_None in Ha. rewrite length_timestamps in Ha. lia. }
    rewrite (Hrow a eq_refl). do 2 f_equal.
    rewrite (hourly_span _ _ 23 a t0 Hh Ha Hlast'). unfold one_hour. lia.
  - intros Hsp Hw j x y Hj Hx Hy.
    assert (Ha : timestamps w !! (length w - 24)%nat
                 = Some (t0 + one_hour - 24 * one_hour)).
    { unfold timestamps. by rewrite list_lookup_fmap, Hw. }
    destruct (spaced_span _ _ 23 _ t0 Hsp Ha Hlast') as [_ Heq].
    apply (Heq ltac:(unfold one_hour; lia) j x y); [| done | done].
    apply lookup_lt_Some in Hy. rewrite length_timestamps in Hy. lia.
Qed.

Lemma same_hour_yesterday_positional_witness :
  ∃ t f,
    build_features w_day md_example = Ok (t, f)
    ∧ f !! "same_hour_yesterday" = Some (inject_Z 1)
    ∧ w_day !! 0%nat = Some (t - 24 * one_hour, 1).
Proof.
  destruct (same_hour_yesterday_positional w_day md_example)
    as (t & f & c & Hf & Hc & Hv & _ & Hh & _).
  - change (length w_day) with 24%nat. lia.
  - cbn [feature_cols md_example]. set_solver.
  - assert (c = 1) by (vm_compute in Hc; congruence). subst c.
    exists t, f. split; [done |]. split; [done |].
    apply Hh. intros j a b _ Ha Hb.
    apply lookup_lt_Some in Hb as Hlt. change (length (timestamps w_day)) with 24%nat in Hlt.
    do 24 (destruct j as [| j];
           [vm_compute in Ha, Hb;
            first [discriminate
                  | injection Ha as <-; injection Hb as <-; reflexivity] |]).
    lia.
Defined.

(** ** The caller's frame (C8) *)

(** C8: the single-step predictor leaves the store as it found it.  The
    forecaster returns what the value-level forecaster returns on the rows
    of the caller's frame; afterwards that frame, and every other object
    that was alive, holds the rows it held before, and the one assignment in
    place went to an object created during the call. *)
Theorem caller_window_not_mutated (s : Store.state) (recent_data : nat)
    (df : DataFrame) (md : ModelData) (cl : string) :
  Store.objects s !! recent_data = Some df →
  Store.predict_next_hour_enhanced recent_data md cl s
    = (predict_next_hour_enhanced df md cl, s)
  ∧ ∃ s',
      Store.predict_next_6_hours recent_data md cl s
        = (predict_next_6_hours df md cl, s')
      ∧ Store.objects s' !! recent_data = Some df
      ∧ Store.objects s ⊆ Store.objects s'
      ∧ (∀ l, l ∈ Store.mutated s' →
           l ∈ Store.mutated s ∨ Store.objects s !! l = None).
Proof.
  intros Hr. split.
  - unfold Store.predict_next_hour_enhanced, mbind, Store.M_bind, Store.read,
      Store.lift.
    rewrite Hr. cbn [default from_option id].
    by destruct (predict_next_hour_enhanced df md cl).
  - destruct (store_predict_next_6_hours_frame md cl recent_data df s Hr)
      as (s' & E & Hsub & Hmut).
    exists s'. split; [done |]. split.
    { by eapply lookup_weaken. }
    split; [done |].
    intros l Hl. rewrite Hmut in Hl.
    apply elem_of_cons in Hl as [-> | Hl]; [right | by left].
    apply fresh_not_allocated.
Qed.

Lemma caller_window_not_mutated_witness :
  ∃ ps s',
    Store.predict_next_6_hours 0 md_example "90%" s_example = (Ok ps, s')
    ∧ Store.objects s' !! 0%nat = Some w_example.
Proof.
  destruct (caller_window_not_mutated s_example 0 w_example md_example "90%")
    as (_ & s' & E & Hsame & _).
  - apply lookup_singleton_eq.
  - destruct (predict_next_6_hours w_example md_example "90%") as [ps |] eqn:E6;
      [| vm_compute in E6; discriminate E6].
    exists ps, s'. split; [exact E | exact Hsame].
Defined.

(** ** Row order (C9) *)

(** C9, as stated, fails for rows with equal timestamps: sorting by
    timestamp does not bring the three rows of [w_tied] and the same rows in
    reverse order to one arrangement, and a model that reads the lags tells
    the two apart. *)
Lemma forecast_tied_rows_order_matters :
  (3 <= length w_tied)%nat
  ∧ reverse w_tied ≡ₚ w_tied
  ∧ predict_next_6_hours (reverse w_tied) md_lags "90%"
    ≠ predict_next_6_hours w_tied md_lags "90%".
Proof.
  split; [simpl; lia |]. split; [apply reverse_Permutation |].
  intros E.
  apply (f_equal (fun r => match r with
                           | Ok (p :: _) => predicted_arrivals p
                           | _ => 0
                           end)) in E.
  vm_compute in E. discriminate E.
Qed.

(** C9 (amended): for rows with pairwise distinct timestamps, the forecast
    does not depend on the order of the input rows; in particular the input
    and its ascending-sorted arrangement give the same forecast. *)
Theorem forecast_permutation_invariant (w w' : DataFrame) (md : ModelData)
    (cl : string) :
  (3 <= length w)%nat →
  NoDup (timestamps w) →
  w' ≡ₚ w →
  predict_next_6_hours w' md cl = predict_next_6_hours w md cl
  ∧ predict_next_6_hours (sort_values w) md cl = predict_next_6_hours w md cl.
Proof.
  intros _ Hnd Hp.
  assert (H : ∀ v : DataFrame, v ≡ₚ w →
            predict_next_6_hours v md cl = predict_next_6_hours w md cl).
  { intros v Hv. unfold predict_next_6_hours. rewrite !set_timestamp_id.
    by rewrite (sort_values_permutation w v). }
  split; [by apply H |]. apply H, sort_values_perm.
Qed.

Lemma forecast_permutation_invariant_witness :
  ∃ ps,
    predict_next_6_hours [(0, 6); (0 - 2 * one_hour, 5); (0 - one_hour, 7)]
      md_lags "90%" = Ok ps
    ∧ predict_next_6_hours w_example md_lags "90%" = Ok ps.
Proof.
  destruct (forecast_permutation_invariant w_example
              [(0, 6); (0 - 2 * one_hour, 5); (0 - one_hour, 7)]
              md_lags "90%") as [E _].
  - simpl. lia.
  - apply (bool_decide_unpack _). by vm_compute.
  - unfold w_example. apply (Permutation_app_comm [_] [_; _]).
  - destruct (predict_next_6_hours w_example md_lags "90%") as [ps |] eqn:E6;
      [| vm_compute in E6; discriminate E6].
    exists ps. split; [exact E | reflexivity].
Defined.

(** ** More on the confidence classifier *)

(** The classifier, with the load category named by its bucket. *)
Lemma get_confidence_level_bucket (hour count day_of_week : Z)
    (ctx : Contexts) (base : Q) (bucket : string) :
  load_bucket count bucket →
  get_confidence_level hour count day_of_week ctx base =
  let blended :=
    ((default base (ctx_hour ctx !! hour)
      + default base (ctx_load_level ctx !! bucket)
      + default base (ctx_day_of_week ctx !! day_of_week)) / 3)%Q in
  if Qltb blended (base * (85 # 100)) then ("high", blended)
  else if Qltb blended (base * (115 # 100)) then ("medium", blended)
  else ("low", blended).
Proof.
  intros Hb. unfold get_confidence_level.
  destruct Hb as [H | H | H | H];
    repeat match goal with
      | |- context [?a <=? ?b] => destruct (Z.leb_spec a b); try lia
      end; reflexivity.
Qed.



(** X2: the classifier sees the predicted count only through its load
    bucket: two counts in the same bucket get the same label and the same
    blended error. *)
Theorem get_confidence_level_same_bucket (hour c1 c2 day_of_week : Z)
    (ctx : Contexts) (base : Q) (bucket : string) :
  load_bucket c1 bucket → load_bucket c2 bucket →
  get_confidence_level hour c1 day_of_week ctx base
  = get_confidence_level hour c2 day_of_week ctx base.
Proof.
  intros H1 H2.
  by rewrite (get_confidence_level_bucket _ _ _ _ _ _ H1),
             (get_confidence_level_bucket _ _ _ _ _ _ H2).
Qed.

Lemma get_confidence_level_same_bucket_witness :
  get_confidence_level 9 4 2 contexts_85 1
  = get_confidence_level 9 6 2 contexts_85 1.
Proof.
  apply (get_confidence_level_same_bucket 9 4 6 2 contexts_85 1 "medium");
    apply bucket_medium; lia.
Defined.

(** ** More on the feature builder *)

(** The last three rows of a frame are what the [.iloc] look-ups read. *)
Lemma iloc_neg_last3 {A} (l : list A) (a3 a2 a1 : A) :
  iloc_neg (l ++ [a3; a2; a1]) 1 = Ok a1
  ∧ iloc_neg (l ++ [a3; a2; a1]) 2 = Ok a2
  ∧ iloc_neg (l ++ [a3; a2; a1]) 3 = Ok a3.
Proof.
  unfold iloc_neg. rewrite !length_app. cbn [length].
  repeat split.
  - destruct (Nat.leb_spec 1 (length l + 3)); [| lia].
    replace (length l + 3 - 1)%nat with (length l + 2)%nat by lia.
    by rewrite lookup_app_r, Nat.add_comm, Nat.add_sub by lia.
  - destruct (Nat.leb_spec 2 (length l + 3)); [| lia].
    replace (length l + 3 - 2)%nat with (length l + 1)%nat by lia.
    by rewrite lookup_app_r, Nat.add_comm, Nat.add_sub by lia.
  - destruct (Nat.leb_spec 3 (length l + 3)); [| lia].
    replace (length l + 3 - 3)%nat with (length l + 0)%nat by lia.
    by rewrite lookup_app_r, Nat.add_comm, Nat.add_sub by lia.
Qed.

Lemma tail_app_exact {A} (l k : list A) n : length k = n → tail n (l ++ k) = k.
Proof.
  intros <-. unfold tail. rewrite length_app.
  replace (length l + length k - length k)%nat with (length l) by lia.
  by rewrite drop_app_length.
Qed.

(** What the builder stores, for a frame given by its last three rows. *)
Lemma build_features_last3 (w0 : DataFrame) (t3 t2 t1 c3 c2 c1 : Z)
    (md : ModelData) t f :
  build_features (w0 ++ [(t3, c3); (t2, c2); (t1, c1)]) md = Ok (t, f) →
  t = t1 + one_hour
  ∧ ∀ k, k ≠ "same_hour_yesterday" →
      f !! k =
      add_optional (feature_cols md) "trend_last_3h" (inject_Z (c1 - c3))
        (add_optional (feature_cols md) "avg_last_3h" (mean [c3; c2; c1])
        (add_optional (feature_cols md) "is_night"
           (inject_Z (int_of_bool ((0 <=? ts_hour t) && (ts_hour t <=? 6))))
        (add_optional (feature_cols md) "is_evening_rush"
           (inject_Z (int_of_bool ((17 <=? ts_hour t) && (ts_hour t <=? 20))))
        (base_features t c1 c2 c3 (high_load_threshold md))))) !! k.
Proof.
  set (w := w0 ++ _). unfold build_features.
  assert (Ht : timestamps w = timestamps w0 ++ [t3; t2; t1])
    by (unfold timestamps, w; by rewrite fmap_app).
  assert (Hc : counts w = counts w0 ++ [c3; c2; c1])
    by (unfold counts, w; by rewrite fmap_app).
  rewrite Ht, Hc.
  destruct (iloc_neg_last3 (timestamps w0) t3 t2 t1) as (-> & _ & _).
  destruct (iloc_neg_last3 (counts w0) c3 c2 c1) as (-> & -> & ->).
  cbn [mbind result_bind].
  rewrite (tail_app_exact _ [c3; c2; c1] 3 eq_refl).
  set (g := add_optional _ "trend_last_3h" _ _).
  destruct (has_col "same_hour_yesterday" (feature_cols md)).
  - destruct (24 <=? length w)%nat.
    + destruct (iloc_neg _ 24) as [c |]; [| discriminate].
      cbn [mbind result_bind]. intros [= <- <-]. split; [done |].
      intros k Hk. by rewrite lookup_insert_ne.
    + cbn [mbind result_bind]. intros [= <- <-]. split; [done |].
      intros k Hk. by rewrite lookup_insert_ne.
  - cbn [mbind result_bind]. intros [= <- <-]. done.
Qed.



(** The optional entries are present exactly when the artifact names them. *)
Lemma build_features_optional (w0 : DataFrame) (t3 t2 t1 c3 c2 c1 : Z)
    (md : ModelData) t f :
  build_features (w0 ++ [(t3, c3); (t2, c2); (t1, c1)]) md = Ok (t, f) →
  f !! "trend_last_3h"
    = (if has_col "trend_last_3h" (feature_cols md)
       then Some (inject_Z (c1 - c3)) else None)
  ∧ f !! "avg_last_3h"
    = (if has_col "avg_last_3h" (feature_cols md)
       then Some (mean [c3; c2; c1]) else None)
  ∧ f !! "is_night"
    = (if has_col "is_night" (feature_cols md)
       then Some (inject_Z (int_of_bool ((0 <=? ts_hour t) && (ts_hour t <=? 6))))
       else None)
  ∧ f !! "is_evening_rush"
    = (if has_col "is_evening_rush" (feature_cols md)
       then Some (inject_Z (int_of_bool ((17 <=? ts_hour t) && (ts_hour t <=? 20))))
       else None).
Proof.
  intros H. apply build_features_last3 in H as [-> Hf].
  repeat split; rewrite Hf by discriminate; features_lookup.
Qed.

(** ** More on the single-step predictor *)

(** The whole dictionary a successful run returns. *)
Lemma predict_next_hour_enhanced_record w md cl p :
  predict_next_hour_enhanced w md cl = Ok p →
  ∃ t f X width,
    build_features w md = Ok (t, f)
    ∧ select_columns f (feature_cols md) = Ok X
    ∧ prediction_intervals md !! cl = Some width
    ∧ p = let raw := py_max0 (model md X) in
          let r := get_confidence_level (ts_hour t) (py_round raw)
                     (ts_dayofweek t) (contexts md) (test_mae md) in
          {| timestamp := t;
             predicted_arrivals := py_round raw;
             lower_bound := Z.max 0 (py_round (raw - width));
             upper_bound := py_round (raw + width);
             confidence_level := fst r;
             confidence_interval := cl;
             expected_error := py_round2 (snd r);
             reasoning :=
               {| r_hour := ts_hour t;
                  r_is_night := default 0%Q (f !! "is_night");
                  r_is_evening_rush := default 0%Q (f !! "is_evening_rush");
                  r_recent_trend :=
                    if Qltb 0 (default 0%Q (f !! "trend_last_3h"))
                    then "increasing" else "decreasing";
                  r_high_load_recent :=
                    py_bool (default 0%Q (f !! "high_load_recent")) |} |}.
Proof.
  unfold predict_next_hour_enhanced.
  destruct (build_features w md) as [[t f] |] eqn:Ef; [| discriminate].
  cbn [mbind result_bind].
  destruct (select_columns f (feature_cols md)) as [X |] eqn:EX; [| discriminate].
  cbn [mbind result_bind]. unfold dict_get.
  destruct (prediction_intervals md !! cl) as [width |] eqn:Ew; [| discriminate].
  cbn [mbind result_bind]. cbn zeta.
  destruct (get_confidence_level _ _ _ _ _) as [confidence context_mae] eqn:Eg.
  intros [= <-]. exists t, f, X, width.
  split; [done |]. split; [done |]. split; [done |].
  cbn zeta. by rewrite Eg.
Qed.

Lemma has_col_false c cols : c ∉ cols → has_col c cols = false.
Proof. intros H. unfold has_col. by apply bool_decide_eq_false. Qed.

Lemma has_col_spec c cols : has_col c cols = true ↔ c ∈ cols.
Proof. unfold has_col. apply bool_decide_eq_true. Qed.

Lemma Qltb_inject_Z (a b : Z) : Qltb (inject_Z a) (inject_Z b) = true ↔ a < b.
Proof. rewrite Qltb_lt. unfold Qlt. simpl. lia. Qed.

(** X4: for counts whose difference the int64 subtraction of the code
    gives exactly, the reported trend is 'increasing' exactly when the
    artifact names 'trend_last_3h' and the latest count exceeds the one two
    rows before; in every other case, equal counts and artifacts without
    the feature included, it is 'decreasing'. *)
Theorem recent_trend_reported (w0 : DataFrame) (t3 t2 t1 c3 c2 c1 : Z)
    (md : ModelData) (cl : string) (p : Prediction) :
  int64 c1 → int64 c3 → int64 (c1 - c3) →
  predict_next_hour_enhanced (w0 ++ [(t3, c3); (t2, c2); (t1, c1)]) md cl = Ok p →
  (r_recent_trend (reasoning p) = "increasing"
     ↔ "trend_last_3h" ∈ feature_cols md ∧ c3 < c1)
  ∧ (r_recent_trend (reasoning p) = "decreasing"
     ↔ ¬ ("trend_last_3h" ∈ feature_cols md ∧ c3 < c1)).
Proof.
  intros _ _ _ Hp.
  apply predict_next_hour_enhanced_record in Hp
    as (t & f & X & width & Hf & _ & _ & ->).
  apply build_features_optional in Hf as (Htrend & _).
  cbn [reasoning r_recent_trend]. rewrite Htrend.
  destruct (has_col "trend_last_3h" (feature_cols md)) eqn:Hc.
  - apply has_col_spec in Hc. cbn [default from_option id].
    change 0%Q with (inject_Z 0).
    destruct (Qltb (inject_Z 0) (inject_Z (c1 - c3))) eqn:E.
    + apply Qltb_inject_Z in E.
      split; split; try done; try (intros _; split; [done | lia]).
      intros H. exfalso. apply H. split; [done | lia].
    + apply not_true_iff_false in E. rewrite Qltb_inject_Z in E.
      split; split; try done; try (intros [_ ?]; lia).
      intros _ [_ ?]. lia.
  - assert (Hn : "trend_last_3h" ∉ feature_cols md).
    { intros Hin. apply has_col_spec in Hin. congruence. }
    cbn.
    split; split; try done; try (intros [? _]; done).
    intros _ [? _]. done.
Qed.

Lemma recent_trend_reported_witness :
  ∃ p, predict_next_hour_enhanced w_example md_full "90%" = Ok p
       ∧ r_recent_trend (reasoning p) = "increasing".
Proof.
  destruct (predict_next_hour_enhanced w_example md_full "90%")
    as [p |] eqn:E; [| vm_compute in E; discriminate E].
  destruct (recent_trend_reported [] (0 - 2 * one_hour) (0 - one_hour) 0
              5 7 6 md_full "90%" p) as [Hinc _];
    [unfold int64; lia.. | exact E |].
  exists p. split; [reflexivity |]. apply Hinc.
  split; [| lia]. apply (bool_decide_unpack _); by vm_compute.
Defined.

Lemma ts_hour_range (t : Z) : 0 <= ts_hour t < 24.
Proof. unfold ts_hour. apply Z.mod_pos_bound. lia. Qed.

(** X5: the context snapshot.  The hour is the target's, in 0..23; the night
    and evening-rush flags are 1 only when the artifact names the feature
    and the hour is in 0..6, respectively 17..20, so never both; the
    high-load flag tells whether the latest count reaches the threshold. *)
Theorem reasoning_snapshot (w0 : DataFrame) (t3 t2 t1 c3 c2 c1 : Z)
    (md : ModelData) (cl : string) (p : Prediction) :
  predict_next_hour_enhanced (w0 ++ [(t3, c3); (t2, c2); (t1, c1)]) md cl = Ok p →
  let r := reasoning p in
  r_hour r = ts_hour (t1 + one_hour) ∧ 0 <= r_hour r < 24
  ∧ (r_is_night r = 1%Q ∨ r_is_night r = 0%Q)
  ∧ (r_is_night r = 1%Q ↔ "is_night" ∈ feature_cols md ∧ r_hour r <= 6)
  ∧ (r_is_evening_rush r = 1%Q ∨ r_is_evening_rush r = 0%Q)
  ∧ (r_is_evening_rush r = 1%Q
       ↔ "is_evening_rush" ∈ feature_cols md ∧ 17 <= r_hour r <= 20)
  ∧ ¬ (r_is_night r = 1%Q ∧ r_is_evening_rush r = 1%Q)
  ∧ (r_high_load_recent r = true
       ↔ (high_load_threshold md <= inject_Z c1)%Q).
Proof.
  intros Hp.
  apply predict_next_hour_enhanced_record in Hp
    as (t & f & X & width & Hf & _ & _ & ->).
  pose proof (build_features_optional _ _ _ _ _ _ _ _ _ _ Hf)
    as (_ & _ & Hnight & Heve).
  pose proof (build_features_last3 _ _ _ _ _ _ _ _ _ _ Hf) as [-> Hg].
  cbn [reasoning r_hour r_is_night r_is_evening_rush r_high_load_recent].
  cbn zeta.
  rewrite Hnight, Heve, (Hg "high_load_recent") by discriminate.
  pose proof (ts_hour_range (t1 + one_hour)) as Hr.
  set (h := ts_hour (t1 + one_hour)) in *.
  assert (Hhl : py_bool (default 0%Q
            (add_optional (feature_cols md) "trend_last_3h" (inject_Z (c1 - c3))
            (add_optional (feature_cols md) "avg_last_3h" (mean [c3; c2; c1])
            (add_optional (feature_cols md) "is_night"
               (inject_Z (int_of_bool ((0 <=? h) && (h <=? 6))))
            (add_optional (feature_cols md) "is_evening_rush"
               (inject_Z (int_of_bool ((17 <=? h) && (h <=? 20))))
            (base_features (t1 + one_hour) c1 c2 c3 (high_load_threshold md)))))
             !! "high_load_recent"))
          = Qleb (high_load_threshold md) (inject_Z c1)).
  { features_lookup. all: by destruct (Qleb _ _). }
  rewrite Hhl, Qleb_le.
  assert (Hn : has_col "is_night" (feature_cols md) = true
               ↔ "is_night" ∈ feature_cols md) by apply has_col_spec.
  assert (He : has_col "is_evening_rush" (feature_cols md) = true
               ↔ "is_evening_rush" ∈ feature_cols md) by apply has_col_spec.
  assert (Hbn : (0 <=? h) && (h <=? 6) = true ↔ h <= 6)
    by (rewrite andb_true_iff, !Z.leb_le; lia).
  assert (Hbe : (17 <=? h) && (h <=? 20) = true ↔ 17 <= h <= 20)
    by (rewrite andb_true_iff, !Z.leb_le; lia).
  destruct (has_col "is_night" (feature_cols md));
    destruct (has_col "is_evening_rush" (feature_cols md));
    destruct ((0 <=? h) && (h <=? 6)); destruct ((17 <=? h) && (h <=? 20));
    cbn [default from_option id int_of_bool];
    change (inject_Z 1) with 1%Q; change (inject_Z 0) with 0%Q;
    intuition (try discriminate; try lia; try congruence).
Qed.

Lemma reasoning_snapshot_witness :
  ∃ p, predict_next_hour_enhanced w_example md_full "90%" = Ok p
       ∧ r_hour (reasoning p) = 1
       ∧ r_is_night (reasoning p) = 1%Q.
Proof.
  destruct (predict_next_hour_enhanced w_example md_full "90%")
    as [p |] eqn:E; [| vm_compute in E; discriminate E].
  destruct (reasoning_snapshot [] (0 - 2 * one_hour) (0 - one_hour) 0
              5 7 6 md_full "90%" p E) as (Hh & _ & _ & Hn & _).
  exists p. split; [reflexivity |]. split; [exact Hh |].
  apply Hn. rewrite Hh.
  split; [| by vm_compute].
  apply (bool_decide_unpack _); by vm_compute.
Defined.

(** X6: the reported half-widths.  Whatever the model returns, the distance
    from the predicted count to the upper bound is within 1 of the interval
    width; the distance down to the lower bound is at most the width plus 1,
    and at least the width minus 1 unless the lower bound was clamped to 0. *)
Theorem interval_half_widths (w : DataFrame) (md : ModelData) (cl : string)
    (p : Prediction) (width : Q) :
  predict_next_hour_enhanced w md cl = Ok p →
  prediction_intervals md !! cl = Some width →
  (width - 1 <= inject_Z (upper_bound p - predicted_arrivals p))%Q
  ∧ (inject_Z (upper_bound p - predicted_arrivals p) <= width + 1)%Q
  ∧ (inject_Z (predicted_arrivals p - lower_bound p) <= width + 1)%Q
  ∧ (0 < lower_bound p →
       (width - 1 <= inject_Z (predicted_arrivals p - lower_bound p))%Q).
Proof.
  intros Hp Hw.
  destruct (predict_next_hour_enhanced_inv _ _ _ _ Hp)
    as (t' & f & X & width' & _ & _ & Hw' & _ & Hpred & Hlo & Hup & _).
  assert (width' = width) by congruence. subst width'.
  set (raw := py_max0 (model md X)) in *.
  pose proof (py_round_near raw) as [H1 H2].
  pose proof (py_round_near (raw + width)) as [H3 H4].
  pose proof (py_round_near (raw - width)) as [H5 H6].
  rewrite Hpred, Hup, Hlo.
  unfold Z.sub. rewrite !inject_Z_plus, !inject_Z_opp.
  split; [lra |]. split; [lra |].
  destruct (Z.max_spec 0 (py_round (raw - width))) as [[Hlt ->] | [Hge ->]].
  - split; [lra | intros _; lra].
  - change (inject_Z 0) with 0%Q.
    assert ((inject_Z (py_round (raw - width)) <= 0)%Q)
      by (change 0%Q with (inject_Z 0); by rewrite <- Zle_Qle).
    split; [lra | intros ?; lia].
Qed.

Lemma interval_half_widths_witness :
  ∃ p, predict_next_hour_enhanced w_example md_example "90%" = Ok p
       ∧ (2 - 1 <= inject_Z (upper_bound p - predicted_arrivals p))%Q
       ∧ (inject_Z (upper_bound p - predicted_arrivals p) <= 2 + 1)%Q.
Proof.
  destruct (predict_next_hour_enhanced w_example md_example "90%")
    as [p |] eqn:E; [| vm_compute in E; discriminate E].
  destruct (interval_half_widths w_example md_example "90%" p 2 E eq_refl)
    as (H1 & H2 & _).
  exists p. split; [reflexivity |]. split; [exact H1 | exact H2].
Defined.

(** X7: a model output that is zero or negative is clamped: the predicted
    count is 0, the lower bound is 0 for a non-negative width, and the
    upper bound is the rounded width. *)
Theorem non_positive_output_clamped (w : DataFrame) (md : ModelData)
    (cl : string) (p : Prediction) (width : Q) :
  (∀ X, (model md X <= 0)%Q) →
  prediction_intervals md !! cl = Some width →
  (0 <= width)%Q →
  predict_next_hour_enhanced w md cl = Ok p →
  predicted_arrivals p = 0 ∧ lower_bound p = 0
  ∧ upper_bound p = py_round width.
Proof.
  intros Hneg Hw Hnn Hp.
  destruct (predict_next_hour_enhanced_inv _ _ _ _ Hp)
    as (t' & f & X & width' & _ & _ & Hw' & _ & Hpred & Hlo & Hup & _).
  assert (width' = width) by congruence. subst width'.
  assert (Hraw : py_max0 (model md X) = 0%Q).
  { unfold py_max0. destruct (Qltb 0 (model md X)) eqn:E; [| done].
    apply Qltb_lt in E. specialize (Hneg X). lra. }
  rewrite Hraw in *.
  split; [by rewrite Hpred |]. split.
  - rewrite Hlo. assert (py_round (0 - width) <= py_round 0)
      by (apply py_round_mono; lra).
    change (py_round 0) with 0 in H. lia.
  - rewrite Hup. apply py_round_proper. lra.
Qed.

Lemma non_positive_output_clamped_witness :
  ∃ p, predict_next_hour_enhanced w_example md_negative "90%" = Ok p
       ∧ predicted_arrivals p = 0 ∧ lower_bound p = 0 ∧ upper_bound p = 2.
Proof.
  destruct (predict_next_hour_enhanced w_example md_negative "90%")
    as [p |] eqn:E; [| vm_compute in E; discriminate E].
  destruct (non_positive_output_clamped w_example md_negative "90%" p 2)
    as (H1 & H2 & H3).
  - intros X. vm_compute. discriminate.
  - reflexivity.
  - vm_compute. discriminate.
  - exact E.
  - exists p. split; [reflexivity |]. split; [exact H1 |].
    split; [exact H2 | exact H3].
Defined.

(** ** Column selection and the ways the predictor fails *)

Lemma select_columns_missing (f : gmap string Q) (cols : list string) missing :
  select_columns f cols = Raise (KeyError_not_in_index missing) →
  missing = filter (fun c => f !! c = None) cols ∧ missing ≠ [].
Proof.
  unfold select_columns. destruct (filter _ cols) as [| c l]; [discriminate |].
  intros [= <-]. done.
Qed.

Lemma select_columns_Ok_inv (f : gmap string Q) (cols : list string) X :
  select_columns f cols = Ok X →
  X = (fun c => default 0%Q (f !! c)) <$> cols
  ∧ ∀ c, c ∈ cols → is_Some (f !! c).
Proof.
  unfold select_columns. destruct (filter _ cols) as [| c l] eqn:E; [| discriminate].
  intros [= <-]. split; [done |].
  intros c Hc. destruct (f !! c) eqn:Ec; [eauto |].
  assert (c ∈ filter (fun c => f !! c = None) cols)
    by (apply list_elem_of_filter; done).
  rewrite E in H. by apply elem_of_nil in H.
Qed.

(** X8: selecting the model's columns.  On success the vector has one value
    per name, in the order of the names (repeated names included); on
    failure the exception lists, in order, exactly the names that are not
    keys of the feature dictionary. *)
Theorem select_columns_spec (f : gmap string Q) (cols : list string) :
  (∀ X, select_columns f cols = Ok X →
     length X = length cols
     ∧ ∀ (i : nat) c, cols !! i = Some c →
         ∃ v, f !! c = Some v ∧ X !! i = Some v)
  ∧ (∀ e, select_columns f cols = Raise e →
     ∃ missing, e = KeyError_not_in_index missing ∧ missing ≠ []
       ∧ missing = filter (fun c => f !! c = None) cols
       ∧ ∀ c, c ∈ missing ↔ c ∈ cols ∧ f !! c = None)
  ∧ ((∃ X, select_columns f cols = Ok X) ↔ ∀ c, c ∈ cols → is_Some (f !! c)).
Proof.
  split; [| split].
  - intros X HX. apply select_columns_Ok_inv in HX as [-> Hall].
    split; [apply length_fmap |].
    intros i c Hi. rewrite list_lookup_fmap, Hi. cbn.
    destruct (Hall c) as [v Hv]; [by eapply list_elem_of_lookup_2 |].
    exists v. by rewrite Hv.
  - intros e He. destruct (select_columns_raises _ _ _ He) as [missing ->].
    apply select_columns_missing in He as [-> Hne].
    eexists. split; [done |]. split; [done |]. split; [done |].
    intros c. by rewrite list_elem_of_filter, (comm and).
  - split.
    + intros [X HX]. by apply select_columns_Ok_inv in HX as [_ ?].
    + intros Hall. eexists. by apply select_columns_ok.
Qed.

Lemma add_optional_is_Some_inv cols name v (m : gmap string Q) k :
  is_Some (add_optional cols name v m !! k) →
  (k = name ∧ name ∈ cols) ∨ is_Some (m !! k).
Proof.
  unfold add_optional. destruct (has_col name cols) eqn:E; [| auto].
  rewrite lookup_insert. case_decide; [| auto].
  intros _. left. split; [done |]. by apply has_col_spec.
Qed.

Lemma base_features_is_Some_inv t l1 l2 l3 thr k :
  is_Some (base_features t l1 l2 l3 thr !! k) → k ∈ computed_features.
Proof.
  unfold base_features, computed_features.
  repeat (rewrite lookup_insert; case_decide; [subst; intros _; set_solver |]).
  rewrite lookup_empty. by intros [? ?].
Qed.

(** Every key of the feature dictionary is a name the builder computes. *)
Lemma build_features_keys w md t f k :
  build_features w md = Ok (t, f) → is_Some (f !! k) → k ∈ computed_features.
Proof.
  intros H Hk.
  apply build_features_inv in H
    as (t0 & l1 & l2 & l3 & g & _ & _ & _ & _ & Hne & _ & -> & Hshy).
  destruct (decide (k = "same_hour_yesterday")) as [-> | Hk'].
  { unfold computed_features. set_solver. }
  rewrite (Hne k Hk') in Hk.
  repeat (apply add_optional_is_Some_inv in Hk as [[-> _] | Hk];
          [unfold computed_features; set_solver |]).
  by eapply base_features_is_Some_inv.
Qed.

(** A run that succeeds tells that the frame, the artifact and the label
    are fit for any other frame of at least three rows. *)
Lemma predict_next_hour_enhanced_Ok_inv w md cl p :
  predict_next_hour_enhanced w md cl = Ok p →
  (3 <= length w)%nat
  ∧ feature_cols md ⊆ computed_features
  ∧ is_Some (prediction_intervals md !! cl).
Proof.
  intros Hp.
  destruct (predict_next_hour_enhanced_inv _ _ _ _ Hp)
    as (t & f & X & width & Hf & HX & Hw & _).
  split.
  { destruct (Nat.le_gt_cases 3 (length w)) as [? | Hlt]; [done |].
    rewrite build_features_short in Hf by done. discriminate. }
  split; [| by eexists].
  intros c Hc. apply select_columns_Ok_inv in HX as [_ Hall].
  eapply build_features_keys; eauto.
Qed.

(** The failures of the single-step predictor, by cause. *)
Lemma predict_failure_cases (w : DataFrame) (md : ModelData) (cl : string)
    (e : exn) :
  predict_next_hour_enhanced w md cl = Raise e →
  (e = IndexError ∧ (length w < 3)%nat)
  ∨ (∃ missing, e = KeyError_not_in_index missing
       ∧ (3 <= length w)%nat ∧ missing ≠ []
       ∧ ∀ c, c ∈ missing ↔ c ∈ feature_cols md ∧ c ∉ computed_features)
  ∨ (e = KeyError cl ∧ (3 <= length w)%nat
       ∧ feature_cols md ⊆ computed_features
       ∧ prediction_intervals md !! cl = None).
Proof.
  unfold predict_next_hour_enhanced.
  destruct (Nat.le_gt_cases 3 (length w)) as [Hlen | Hlt].
  2: { rewrite build_features_short by done. intros [= <-]. by left. }
  destruct (build_features_ok w md Hlen) as (t0 & f & _ & Hf). rewrite Hf.
  cbn [mbind result_bind].
  assert (Hkeys : ∀ c, c ∈ feature_cols md →
            (f !! c = None ↔ c ∉ computed_features)).
  { intros c Hc. split.
    - intros Hn Hin.
      destruct (build_features_present _ _ _ _ _ Hf Hc Hin) as [v Hv]. congruence.
    - intros Hn. destruct (f !! c) eqn:Ec; [| done].
      exfalso. apply Hn. eapply build_features_keys; eauto. }
  destruct (select_columns f (feature_cols md)) as [X | e'] eqn:EX.
  - cbn [mbind result_bind]. unfold dict_get.
    destruct (prediction_intervals md !! cl) as [width |] eqn:Ew.
    + cbn [mbind result_bind]. destruct (get_confidence_level _ _ _ _ _).
      discriminate.
    + intros [= <-]. right. right. repeat split; try done.
      intros c Hc. apply select_columns_Ok_inv in EX as [_ Hall].
      eapply build_features_keys; eauto.
  - intros [= <-]. right. left.
    destruct (select_columns_raises _ _ _ EX) as [missing ->].
    apply select_columns_missing in EX as [-> Hne].
    eexists. split; [done |]. split; [done |]. split; [done |].
    intros c. rewrite list_elem_of_filter. split.
    + intros [Hn Hc]. split; [done |]. by apply Hkeys.
    + intros [Hc Hn]. split; [| done]. by apply Hkeys.
Qed.

(** X9: the three ways the single-step predictor fails: out of bounds, when
    the frame has fewer than 3 rows; on the column selection, listing names
    of the artifact that the builder does not compute; on the label, when it
    is not a key of the interval widths.  They are tried in that order. *)
Theorem predict_failure_modes (w : DataFrame) (md : ModelData) (cl : string)
    (e : exn) :
  predict_next_hour_enhanced w md cl = Raise e →
  (e = IndexError ∧ (length w < 3)%nat)
  ∨ (∃ missing, e = KeyError_not_in_index missing
       ∧ (3 <= length w)%nat ∧ missing ≠ []
       ∧ ∀ c, c ∈ missing ↔ c ∈ feature_cols md ∧ c ∉ computed_features)
  ∨ (e = KeyError cl ∧ (3 <= length w)%nat
       ∧ feature_cols md ⊆ computed_features
       ∧ prediction_intervals md !! cl = None).
Proof. apply predict_failure_cases. Qed.

Lemma predict_failure_modes_witness :
  ∃ missing,
    predict_next_hour_enhanced w_example md_weather "90%"
    = Raise (KeyError_not_in_index missing)
    ∧ ∀ c, c ∈ missing ↔ c ∈ feature_cols md_weather ∧ c ∉ computed_features.
Proof.
  destruct (predict_next_hour_enhanced w_example md_weather "90%")
    as [p | e] eqn:E; [vm_compute in E; discriminate E |].
  destruct (predict_failure_modes w_example md_weather "90%" e E)
    as [[_ Hl] | [(missing & -> & _ & _ & Hm) | (-> & _ & _ & Hn)]].
  - simpl in Hl. lia.
  - by exists missing.
  - vm_compute in Hn. discriminate Hn.
Defined.

(** ** More on the iterative forecaster *)

Lemma predict_next_6_hours_first_Ok (w : DataFrame) md cl p :
  predict_next_hour_enhanced (sort_values w) md cl = Ok p →
  ∃ t ps,
    last (timestamps (sort_values w)) = Some t
    ∧ predict_next_6_hours w md cl = Ok ps
    ∧ length ps = 6%nat
    ∧ ∀ (i : nat) q, ps !! i = Some q →
        timestamp q = t + (Z.of_nat i + 1) * one_hour.
Proof.
  intros Hp. unfold predict_next_6_hours. rewrite set_timestamp_id.
  apply predict_next_hour_enhanced_Ok_inv in Hp as (Hlen & Hsup & [width Hw]).
  destruct (iloc_neg_ok (timestamps (sort_values w)) 1) as (t & E & _);
    [rewrite length_timestamps; lia |].
  rewrite E. cbn [mbind result_bind]. apply iloc_neg_1_last in E.
  destruct (forecast_loop_ok md cl width range_1_7 (sort_values w) [] t)
    as (ps & Hps & Hl & Hts); [done.. |].
  by exists t, ps.
Qed.

Lemma predict_next_6_hours_first_Raise (w : DataFrame) md cl e :
  predict_next_hour_enhanced (sort_values w) md cl = Raise e →
  predict_next_6_hours w md cl = Raise e.
Proof.
  intros Hp. unfold predict_next_6_hours. rewrite set_timestamp_id.
  destruct (iloc_neg (timestamps (sort_values w)) 1) as [t | e1] eqn:E.
  - cbn [mbind result_bind]. unfold range_1_7. cbn [forecast_loop].
    by rewrite forecast_step_eq, Hp.
  - cbn [mbind result_bind].
    assert (Hlen : (length (sort_values w) < 3)%nat).
    { destruct (Nat.le_gt_cases 1 (length (sort_values w))) as [H1 | H1]; [| lia].
      destruct (iloc_neg_ok (timestamps (sort_values w)) 1) as (t & E' & _);
        [rewrite length_timestamps; lia | congruence]. }
    rewrite predict_next_hour_enhanced_short in Hp by done.
    injection Hp as <-. f_equal.
    unfold iloc_neg in E.
    repeat match type of E with
      | context [if ?b then _ else _] => destruct b
      | context [match ?o with Some _ => _ | None => _ end] => destruct o
      end; congruence.
Qed.

(** What a forecast that succeeds tells. *)
Lemma predict_next_6_hours_Ok_inv (w : DataFrame) md cl ps :
  predict_next_6_hours w md cl = Ok ps →
  (3 <= length w)%nat
  ∧ feature_cols md ⊆ computed_features
  ∧ is_Some (prediction_intervals md !! cl)
  ∧ length ps = 6%nat
  ∧ ∃ t, ∀ (i : nat) q, ps !! i = Some q →
      timestamp q = t + (Z.of_nat i + 1) * one_hour.
Proof.
  intros H.
  destruct (predict_next_hour_enhanced (sort_values w) md cl) as [p | e] eqn:Hp.
  - destruct (predict_next_6_hours_first_Ok w md cl p Hp)
      as (t & ps' & _ & Hps & Hl & Hts).
    assert (ps' = ps) by congruence. subst ps'.
    apply predict_next_hour_enhanced_Ok_inv in Hp as (Hlen & Hsup & Hw).
    rewrite sort_values_length in Hlen. eauto 10.
  - apply predict_next_6_hours_first_Raise in Hp. congruence.
Qed.

(** X10: all or nothing.  The forecast fails exactly when the first step, on
    the sorted frame, fails, and then with that step's exception; otherwise
    it has six points.  No later step can fail. *)
Theorem forecast_all_or_nothing (w : DataFrame) (md : ModelData) (cl : string) :
  (∀ e, predict_next_6_hours w md cl = Raise e
        ↔ predict_next_hour_enhanced (sort_values w) md cl = Raise e)
  ∧ (∀ ps, predict_next_6_hours w md cl = Ok ps → length ps = 6%nat).
Proof.
  split.
  - intros e. split; [| apply predict_next_6_hours_first_Raise].
    intros H.
    destruct (predict_next_hour_enhanced (sort_values w) md cl) as [p | e'] eqn:Hp.
    + destruct (predict_next_6_hours_first_Ok w md cl p Hp) as (? & ? & _ & ? & _).
      congruence.
    + apply predict_next_6_hours_first_Raise in Hp. congruence.
  - intros ps H. by apply predict_next_6_hours_Ok_inv in H as (_ & _ & _ & ? & _).
Qed.

(** ** The 50-row cap *)

Lemma tail_ge {A} n (l : list A) : (length l <= n)%nat → tail n l = l.
Proof.
  intros H. unfold tail. by replace (length l - n)%nat with 0%nat by lia.
Qed.

Lemma tail_tail {A} k n (l : list A) : (k <= n)%nat → tail k (tail n l) = tail k l.
Proof.
  intros H. unfold tail. rewrite length_drop, drop_drop. f_equal. lia.
Qed.

Lemma iloc_neg_tail {A} k n (l : list A) :
  (k <= n)%nat → iloc_neg (tail n l) k = iloc_neg l k.
Proof.
  intros H. destruct (Nat.le_gt_cases (length l) n) as [Hle | Hgt].
  { by rewrite tail_ge. }
  unfold iloc_neg, tail. rewrite length_drop, lookup_drop.
  replace (length l - (length l - n))%nat with n by lia.
  destruct (Nat.leb_spec k n); [| lia].
  destruct (Nat.leb_spec k (length l)); [| lia].
  by replace (length l - n + (n - k))%nat with (length l - k)%nat by lia.
Qed.

Lemma counts_tail n (w : DataFrame) : counts (tail n w) = tail n (counts w).
Proof. unfold counts, tail. by rewrite fmap_drop, length_fmap. Qed.

Lemma timestamps_tail n (w : DataFrame) :
  timestamps (tail n w) = tail n (timestamps w).
Proof. unfold timestamps, tail. by rewrite fmap_drop, length_fmap. Qed.

Lemma build_features_tail n (w : DataFrame) md :
  (24 <= n)%nat → build_features (tail n w) md = build_features w md.
Proof.
  intros Hn. destruct (Nat.le_gt_cases (length w) n) as [Hle | Hgt].
  { by rewrite tail_ge. }
  unfold build_features.
  rewrite counts_tail, timestamps_tail, !iloc_neg_tail, tail_tail by lia.
  assert (Hl : length (tail n w) = n) by (apply tail_length; lia).
  rewrite Hl.
  destruct (Nat.leb_spec 24 n); [| lia].
  destruct (Nat.leb_spec 24 (length w)); [| lia].
  reflexivity.
Qed.

Lemma predict_next_hour_enhanced_tail n (w : DataFrame) md cl :
  (24 <= n)%nat →
  predict_next_hour_enhanced (tail n w) md cl = predict_next_hour_enhanced w md cl.
Proof.
  intros Hn. unfold predict_next_hour_enhanced.
  by rewrite build_features_tail.
Qed.

Lemma next_working_data_eq (w : DataFrame) p :
  next_working_data w p = tail 50 (w ++ [(timestamp p, predicted_arrivals p)]).
Proof.
  unfold next_working_data. cbn zeta.
  destruct (Nat.ltb_spec 50 (length (w ++ [(timestamp p, predicted_arrivals p)])));
    [done |].
  by rewrite tail_ge.
Qed.

(** X11: the cap is invisible.  One pass of the loop leaves the working data
    as the last 50 rows of the data extended with the prediction, so it
    never holds more than 50 rows afterwards, and the next prediction is the
    one the uncapped data would give. *)
Theorem cap_is_invisible (w w' : DataFrame) (md : ModelData) (cl : string)
    (p : Prediction) :
  forecast_step w md cl = Ok (p, w') →
  let extended := w ++ [(timestamp p, predicted_arrivals p)] in
  w' = tail 50 extended
  ∧ length w' = Nat.min (length w + 1) 50
  ∧ predict_next_hour_enhanced w' md cl
    = predict_next_hour_enhanced extended md cl.
Proof.
  rewrite forecast_step_eq.
  destruct (predict_next_hour_enhanced w md cl) as [q |]; [| discriminate].
  cbn [mbind result_bind]. intros [= <- <-]. cbn zeta.
  rewrite next_working_data_eq.
  split; [done |]. split.
  - unfold tail. rewrite length_drop, length_app. simpl. lia.
  - apply predict_next_hour_enhanced_tail. lia.
Qed.

Lemma cap_is_invisible_witness :
  ∃ p w',
    forecast_step w_example md_example "90%" = Ok (p, w')
    ∧ length w' = 4%nat
    ∧ predict_next_hour_enhanced w' md_example "90%"
      = predict_next_hour_enhanced
          (w_example ++ [(timestamp p, predicted_arrivals p)]) md_example "90%".
Proof.
  destruct (forecast_step w_example md_example "90%") as [[p w'] |] eqn:E;
    [| vm_compute in E; discriminate E].
  destruct (cap_is_invisible w_example w' md_example "90%" p E)
    as (_ & Hl & Hp).
  exists p, w'. split; [reflexivity |]. split; [exact Hl | exact Hp].
Defined.

(** X12: feedback.  After a pass, the latest row of the working data is the
    prediction just made, stamped with its timestamp, and the row before it
    is the row that was latest; so the next pass reads the prediction as its
    lag 1 and the former lag 1 as its lag 2. *)
Theorem prediction_fed_back (w w' : DataFrame) (md : ModelData) (cl : string)
    (p : Prediction) :
  forecast_step w md cl = Ok (p, w') →
  last w' = Some (timestamp p, predicted_arrivals p)
  ∧ iloc_neg (counts w') 1 = Ok (predicted_arrivals p)
  ∧ iloc_neg (counts w') 2 = iloc_neg (counts w) 1
  ∧ iloc_neg (counts w') 3 = iloc_neg (counts w) 2.
Proof.
  rewrite forecast_step_eq.
  destruct (predict_next_hour_enhanced w md cl) as [q |] eqn:Hq; [| discriminate].
  cbn [mbind result_bind]. intros [= <- <-].
  apply predict_next_hour_enhanced_Ok_inv in Hq as (Hlen & _).
  rewrite next_working_data_eq.
  split.
  { rewrite last_tail by lia. apply last_snoc. }
  rewrite counts_tail, !iloc_neg_tail by lia.
  unfold counts. rewrite fmap_app. cbn [fmap list_fmap snd].
  set (c := snd <$> w). assert (Hc : (3 <= length c)%nat)
    by (unfold c; by rewrite length_fmap).
  unfold iloc_neg. rewrite length_app. cbn [length].
  destruct (Nat.leb_spec 1 (length c + 1)); [| lia].
  destruct (Nat.leb_spec 2 (length c + 1)); [| lia].
  destruct (Nat.leb_spec 3 (length c + 1)); [| lia].
  destruct (Nat.leb_spec 1 (length c)); [| lia].
  destruct (Nat.leb_spec 2 (length c)); [| lia].
  split; [| split].
  - rewrite lookup_app_r by lia.
    by replace (length c + 1 - 1 - length c)%nat with 0%nat by lia.
  - rewrite lookup_app_l by lia.
    by replace (length c + 1 - 2)%nat with (length c - 1)%nat by lia.
  - rewrite lookup_app_l by lia.
    by replace (length c + 1 - 3)%nat with (length c - 2)%nat by lia.
Qed.

Lemma prediction_fed_back_witness :
  ∃ p w',
    forecast_step w_example md_example "90%" = Ok (p, w')
    ∧ iloc_neg (counts w') 1 = Ok (predicted_arrivals p)
    ∧ iloc_neg (counts w') 2 = Ok 6.
Proof.
  destruct (forecast_step w_example md_example "90%") as [[p w'] |] eqn:E;
    [| vm_compute in E; discriminate E].
  destruct (prediction_fed_back w_example w' md_example "90%" p E)
    as (_ & H1 & H2 & _).
  exists p, w'. split; [reflexivity |]. split; [exact H1 | exact H2].
Defined.

(** ** Only the latest 24 rows matter *)

Lemma tail_snoc {A} n (l : list A) x : tail (S n) (l ++ [x]) = tail n l ++ [x].
Proof.
  unfold tail. rewrite length_app. cbn [length].
  replace (length l + 1 - S n)%nat with (length l - n)%nat by lia.
  apply drop_app_le. lia.
Qed.

Lemma next_working_data_agree (w1 w2 : DataFrame) p :
  (24 <= length w1)%nat → (24 <= length w2)%nat →
  tail 24 w1 = tail 24 w2 →
  (24 <= length (next_working_data w1 p))%nat
  ∧ (24 <= length (next_working_data w2 p))%nat
  ∧ tail 24 (next_working_data w1 p) = tail 24 (next_working_data w2 p).
Proof.
  intros H1 H2 E. rewrite !next_working_data_eq.
  split; [| split].
  - unfold tail at 1. rewrite length_drop, length_app. simpl. lia.
  - unfold tail at 1. rewrite length_drop, length_app. simpl. lia.
  - rewrite !tail_tail, !tail_snoc by lia.
    by rewrite <- (tail_tail 23 24 w1), <- (tail_tail 23 24 w2), E by lia.
Qed.

Section last_24.
Context (md : ModelData) (cl : string).

Lemma predict_next_hour_enhanced_agree (w1 w2 : DataFrame) :
  tail 24 w1 = tail 24 w2 →
  predict_next_hour_enhanced w1 md cl = predict_next_hour_enhanced w2 md cl.
Proof.
  intros E.
  rewrite <- (predict_next_hour_enhanced_tail 24 w1), E by lia.
  apply predict_next_hour_enhanced_tail. lia.
Qed.

Lemma forecast_loop_agree hours : ∀ (w1 w2 : DataFrame) acc,
  (24 <= length w1)%nat → (24 <= length w2)%nat →
  tail 24 w1 = tail 24 w2 →
  forecast_loop hours w1 acc md cl = forecast_loop hours w2 acc md cl.
Proof.
  induction hours as [| h hours IH]; intros w1 w2 acc H1 H2 E; [done |].
  cbn [forecast_loop]. rewrite !forecast_step_eq.
  rewrite (predict_next_hour_enhanced_agree w1 w2 E).
  destruct (predict_next_hour_enhanced w2 md cl) as [p |]; [| done].
  cbn [mbind result_bind].
  destruct (next_working_data_agree w1 w2 p H1 H2 E) as (? & ? & ?).
  by apply IH.
Qed.

End last_24.

(** X13: for a frame in strictly ascending order of timestamp, rows before
    the latest 24 have no effect on the six-hour forecast: keeping only the
    last n rows, for any n of at least 24, gives the same result. *)
Theorem only_latest_24_rows_matter (w : DataFrame) (md : ModelData)
    (cl : string) (n : nat) :
  StronglySorted ts_lt w → (24 <= n)%nat →
  predict_next_6_hours (tail n w) md cl = predict_next_6_hours w md cl.
Proof.
  intros Hs Hn.
  destruct (Nat.le_gt_cases (length w) n) as [Hle | Hgt].
  { by rewrite tail_ge. }
  assert (Hs' : StronglySorted ts_lt (tail n w)).
  { unfold tail. rewrite <- (take_drop (length w - n) w) in Hs.
    by apply StronglySorted_app_1_r in Hs. }
  unfold predict_next_6_hours.
  rewrite !set_timestamp_id, (sort_values_sorted_id _ Hs),
    (sort_values_sorted_id _ Hs').
  rewrite timestamps_tail, iloc_neg_tail by lia.
  destruct (iloc_neg (timestamps w) 1); [| done]. cbn [mbind result_bind].
  apply forecast_loop_agree.
  - rewrite tail_length; lia.
  - lia.
  - apply tail_tail. lia.
Qed.

(** The bound is sharp: for the model of [md_lags] the last 24 rows of
    [w_30] give the forecast of the whole frame, the last 23 do not. *)
Lemma only_latest_24_rows_matter_witness :
  length w_30 = 30%nat
  ∧ predict_next_6_hours (tail 24 w_30) md_lags "90%"
    = predict_next_6_hours w_30 md_lags "90%"
  ∧ predict_next_6_hours (tail 23 w_30) md_lags "90%"
    ≠ predict_next_6_hours w_30 md_lags "90%".
Proof.
  split; [reflexivity |]. split.
  - apply (only_latest_24_rows_matter w_30 md_lags "90%" 24); [| lia].
    apply (bool_decide_unpack _). by vm_compute.
  - intros E.
    apply (f_equal (fun r => match r with
                             | Ok (p :: _) => predicted_arrivals p
                             | _ => 0
                             end)) in E.
    vm_compute in E. discriminate E.
Defined.

(** ** The reported label and expected error *)

Lemma py_round2_near (x : Q) :
  (py_round2 x - (1 # 200) <= x ∧ x <= py_round2 x + (1 # 200))%Q.
Proof.
  unfold py_round2. pose proof (py_round_near (x * 100)) as [H1 H2].
  set (k := inject_Z (py_round (x * 100))) in *.
  assert (E : (k / 100 == k * (1 # 100))%Q) by (unfold Qdiv; reflexivity).
  rewrite E. split; lra.
Qed.

Lemma get_confidence_level_label hour count day_of_week ctx base :
  fst (get_confidence_level hour count day_of_week ctx base)
  ∈ ["high"; "medium"; "low"].
Proof.
  unfold get_confidence_level. cbn zeta.
  repeat match goal with
    | |- context [if Qltb ?a ?b then _ else _] => destruct (Qltb a b)
    end; cbn [fst]; set_solver.
Qed.

(** X14: what a point says about itself.  It repeats the requested label of
    the interval; its confidence label is 'high', 'medium' or 'low'; its
    expected error is a whole number of hundredths, within 0.005 of the
    blended error of the classifier for the target hour, the predicted count
    and the target weekday. *)
Theorem point_metadata (w : DataFrame) (md : ModelData) (cl : string)
    (p : Prediction) :
  predict_next_hour_enhanced w md cl = Ok p →
  let r := get_confidence_level (ts_hour (timestamp p)) (predicted_arrivals p)
             (ts_dayofweek (timestamp p)) (contexts md) (test_mae md) in
  confidence_interval p = cl
  ∧ confidence_level p = fst r
  ∧ confidence_level p ∈ ["high"; "medium"; "low"]
  ∧ (∃ k : Z, expected_error p == inject_Z k / 100)%Q
  ∧ (expected_error p - (1 # 200) <= snd r)%Q
  ∧ (snd r <= expected_error p + (1 # 200))%Q.
Proof.
  intros Hp.
  apply predict_next_hour_enhanced_record in Hp
    as (t & f & X & width & _ & _ & _ & ->).
  cbn [timestamp predicted_arrivals confidence_interval confidence_level
       expected_error]. cbn zeta.
  set (r := get_confidence_level _ _ _ _ _).
  split; [done |]. split; [done |].
  split; [apply get_confidence_level_label |].
  split; [by eexists |].
  apply py_round2_near.
Qed.

Lemma point_metadata_witness :
  ∃ p, predict_next_hour_enhanced w_example md_example "95%" = Ok p
       ∧ confidence_interval p = "95%"
       ∧ confidence_level p ∈ ["high"; "medium"; "low"].
Proof.
  destruct (predict_next_hour_enhanced w_example md_example "95%")
    as [p |] eqn:E; [| vm_compute in E; discriminate E].
  destruct (point_metadata w_example md_example "95%" p E)
    as (H1 & _ & H3 & _).
  exists p. split; [reflexivity |]. split; [exact H1 | exact H3].
Defined.

(** ** The summary statistics *)

Section py_max_by.
Context {A : Type} (key : A → Z).

Lemma py_max_by_snoc (l : list A) (y : A) :
  py_max_by key (l ++ [y]) =
  match py_max_by key l with
  | None => Some y
  | Some best => Some (if key best <? key y then y else best)
  end.
Proof.
  destruct l as [| x l]; [done |]. cbn [py_max_by app].
  by rewrite foldl_snoc.
Qed.

(** [max(l, key=key)] is the first item whose key no other key exceeds. *)
Lemma py_max_by_first_largest (l : list A) (x : A) :
  py_max_by key l = Some x →
  ∃ i : nat, l !! i = Some x
    ∧ (∀ y, y ∈ l → key y <= key x)
    ∧ (∀ (j : nat) y, (j < i)%nat → l !! j = Some y → key y < key x).
Proof.
  revert x. induction l as [| y l IH] using rev_ind; intros x; [done |].
  rewrite py_max_by_snoc.
  destruct (py_max_by key l) as [best |] eqn:E.
  - destruct (IH best eq_refl) as (i & Hi & Hle & Hlt).
    destruct (Z.ltb_spec (key best) (key y)); intros [= <-].
    + exists (length l). split; [by rewrite lookup_app_r, Nat.sub_diag by lia |].
      split.
      * intros z [Hz | ->%list_elem_of_singleton]%elem_of_app; [| lia].
        specialize (Hle z Hz). lia.
      * intros j z Hj Hz. rewrite lookup_app_l in Hz by lia.
        assert (key z <= key best)
          by (apply Hle; by eapply list_elem_of_lookup_2).
        lia.
    + exists i. split; [by apply lookup_app_l_Some |]. split.
      * intros z [Hz | ->%list_elem_of_singleton]%elem_of_app; [by apply Hle | lia].
      * intros j z Hj Hz. apply (Hlt j z Hj).
        apply lookup_lt_Some in Hi. by rewrite lookup_app_l in Hz by lia.
  - destruct l; [| done]. intros [= <-]. exists 0%nat.
    split; [done |]. split.
    + intros z ->%list_elem_of_singleton. lia.
    + intros j z Hj. lia.
Qed.

Lemma py_max_by_is_Some (l : list A) : l ≠ [] → is_Some (py_max_by key l).
Proof. destruct l; [done |]. by eexists. Qed.

Lemma py_min_by_is_Some (l : list A) : l ≠ [] → is_Some (py_min_by key l).
Proof. destruct l; [done |]. by eexists. Qed.

End py_max_by.

(** The largest key, taken of the keys, is the key of the first largest
    item. *)
Lemma py_max_by_keys {A} (key : A → Z) (l : list A) :
  py_max_by id (key <$> l) = key <$> py_max_by key l.
Proof.
  induction l as [| y l IH] using rev_ind; [done |].
  rewrite fmap_app. change (key <$> [y]) with [key y].
  rewrite !py_max_by_snoc, IH.
  destruct (py_max_by key l) as [best |]; [| done]. cbn. unfold id.
  by destruct (key best <? key y).
Qed.

Lemma Zsum_le_max (l : list Z) (m : Z) :
  (∀ z, z ∈ l → z <= m) → Zsum l <= Z.of_nat (length l) * m.
Proof.
  induction l as [| z l IH]; intros H; [simpl; lia |].
  cbn [Zsum foldr length]. fold (Zsum l).
  assert (z <= m) by (apply H; left).
  assert (Zsum l <= Z.of_nat (length l) * m)
    by (apply IH; intros; apply H; by right).
  lia.
Qed.

(** ** [explain_6_hour_forecast] *)

Section explainer.
Context (llm : string → list Prediction → exception + string).

(** X15: the order of its failures.  Without a key it raises [ValueError],
    whatever the predictions; with a key and no prediction it raises
    [ZeroDivisionError]; in both cases the language model is not consulted.
    With a key and predictions, a failure of the model is the failure of the
    call. *)
Theorem explain_6_hour_forecast_failures (predictions : list Prediction)
    (groq_api_key : string) :
  (groq_api_key = "" →
     ∃ msg, ∀ llm', explain_6_hour_forecast llm' predictions groq_api_key
                    = inl (ValueError msg))
  ∧ (groq_api_key ≠ "" → predictions = [] →
       ∀ llm', explain_6_hour_forecast llm' predictions groq_api_key
               = inl ZeroDivisionError)
  ∧ (groq_api_key ≠ "" → predictions ≠ [] → ∀ e,
       explain_6_hour_forecast llm predictions groq_api_key = inl e
       ↔ llm groq_api_key predictions = inl e).
Proof.
  unfold explain_6_hour_forecast. split; [| split].
  - intros ->. eexists. intros llm'. reflexivity.
  - intros Hk -> llm'. by rewrite decide_False.
  - intros Hk Hp e. rewrite decide_False by done.
    rewrite decide_False by (by destruct predictions).
    destruct (py_max_by_is_Some predicted_arrivals predictions Hp) as [x ->].
    destruct (py_min_by_is_Some predicted_arrivals predictions Hp) as [y ->].
    destruct (llm groq_api_key predictions); split; congruence.
Qed.

(** X16: what it returns.  The predictions are handed back unchanged; the
    total is their sum; the peak is the first prediction with the largest
    count, so no count exceeds the peak count, every earlier count is
    smaller, and the total is at most the peak count times their number. *)
Theorem explain_6_hour_forecast_summary (predictions : list Prediction)
    (groq_api_key : string) (r : Explanation) :
  explain_6_hour_forecast llm predictions groq_api_key = inr r →
  groq_api_key ≠ "" ∧ predictions ≠ []
  ∧ llm groq_api_key predictions = inr (overall_explanation r)
  ∧ hourly_predictions r = predictions
  ∧ total_expected r = total_arrivals predictions
  ∧ total_expected r <= Z.of_nat (length predictions) * ex_peak_count r
  ∧ (∀ p, p ∈ predictions → predicted_arrivals p <= ex_peak_count r)
  ∧ ∃ (i : nat) peak,
      predictions !! i = Some peak
      ∧ ex_peak_hour r = timestamp peak
      ∧ ex_peak_count r = predicted_arrivals peak
      ∧ ∀ (j : nat) p, (j < i)%nat → predictions !! j = Some p →
          predicted_arrivals p < ex_peak_count r.
Proof.
  unfold explain_6_hour_forecast.
  destruct (decide (groq_api_key = "")) as [| Hk]; [discriminate |].
  destruct (decide (length predictions = 0%nat)) as [| Hl]; [discriminate |].
  assert (Hp : predictions ≠ []) by (intros ->; done).
  destruct (py_max_by predicted_arrivals predictions) as [peak |] eqn:Hmax;
    [| discriminate].
  destruct (py_min_by predicted_arrivals predictions) as [low |];
    [| discriminate].
  destruct (llm groq_api_key predictions) as [| text]; [discriminate |].
  intros [= <-]. cbn.
  destruct (py_max_by_first_largest _ _ _ Hmax) as (i & Hi & Hle & Hlt).
  split; [done |]. split; [done |]. split; [done |]. split; [done |].
  split; [done |]. split.
  - unfold total_arrivals.
    rewrite <- (length_fmap predicted_arrivals predictions).
    apply Zsum_le_max. intros z (p & -> & Hin)%list_elem_of_fmap. by apply Hle.
  - split; [done |]. by exists i, peak.
Qed.

End explainer.

Lemma explain_6_hour_forecast_summary_witness :
  ∃ ps r,
    predict_next_6_hours w_example md_example "90%" = Ok ps
    ∧ explain_6_hour_forecast llm_example ps "key" = inr r
    ∧ hourly_predictions r = ps
    ∧ total_expected r <= 6 * ex_peak_count r.
Proof.
  destruct (predict_next_6_hours w_example md_example "90%")
    as [ps |] eqn:E; [| vm_compute in E; discriminate E].
  assert (Hl : length ps = 6%nat).
  { vm_compute in E. injection E as <-. reflexivity. }
  destruct (explain_6_hour_forecast llm_example ps "key") as [e | r] eqn:Er.
  { exfalso. unfold explain_6_hour_forecast, llm_example in Er.
    do 7 (destruct ps as [| ? ps]; try discriminate Hl).
    discriminate Er. }
  destruct (explain_6_hour_forecast_summary llm_example ps "key" r Er)
    as (_ & _ & _ & H1 & _ & H2 & _).
  exists ps, r. split; [reflexivity |]. split; [exact Er |].
  split; [exact H1 |]. rewrite Hl in H2. exact H2.
Defined.

(** ** The endpoints *)

Lemma predictions_of_request_inr md data ps :
  predictions_of_request md data = inr ps ↔
  ∃ rows, data ≫= recent_data_field = Some rows
    ∧ (3 <= length rows)%nat
    ∧ predict_next_6_hours rows md (requested_label data) = Ok ps.
Proof.
  unfold predictions_of_request, requested_label.
  destruct (data ≫= recent_data_field) as [rows |]; [| split; [done | by intros (? & ? & _)]].
  destruct (decide (rows = [])) as [-> | Hne].
  { split; [done | intros (? & [= <-] & ? & _); simpl in *; lia]. }
  destruct (Nat.ltb_spec (length rows) 3).
  { split; [done | intros (? & [= <-] & ? & _); lia]. }
  destruct (predict_next_6_hours rows md _) as [ps' | e] eqn:E.
  - split.
    + intros [= <-]. by exists rows.
    + intros (? & [= <-] & _ & H'). congruence.
  - split; [done |]. intros (? & [= <-] & _ & H'). congruence.
Qed.

Lemma predictions_of_request_inl md data body status :
  predictions_of_request md data = inl (body, status) →
  (status = 400 ∧ data ≫= recent_data_field = None
     ∧ body = ErrorBody "Missing 'recent_data' in request")
  ∨ (status = 500 ∧ data ≫= recent_data_field = Some []
     ∧ body = ExceptionBody (Exn (KeyError "timestamp")))
  ∨ (status = 400
     ∧ (∃ rows, data ≫= recent_data_field = Some rows
                ∧ (1 <= length rows < 3)%nat)
     ∧ body = ErrorBody "Need at least 3 hours of recent data")
  ∨ (status = 500
     ∧ ∃ rows e, data ≫= recent_data_field = Some rows
         ∧ (3 <= length rows)%nat
         ∧ predict_next_6_hours rows md (requested_label data) = Raise e
         ∧ body = ExceptionBody (Exn e)).
Proof.
  unfold predictions_of_request, requested_label.
  destruct (data ≫= recent_data_field) as [rows |]; [| intros [= <- <-]; by left].
  destruct (decide (rows = [])) as [-> | Hne].
  { intros [= <- <-]. right. by left. }
  destruct (Nat.ltb_spec (length rows) 3).
  { intros [= <- <-]. right. right. left. split; [done |]. split; [| done].
    exists rows. split; [done |]. destruct rows; [done | simpl in *; lia]. }
  destruct (predict_next_6_hours rows md _) as [ps' | e] eqn:E; [done |].
  intros [= <- <-]. right. right. right. split; [done |]. by exists rows, e.
Qed.

Lemma six_predictions_have_a_peak (ps : list Prediction) :
  length ps = 6%nat →
  ∃ peak, py_max_by predicted_arrivals ps = Some peak
    ∧ py_max_by id (predicted_arrivals <$> ps) = Some (predicted_arrivals peak)
    ∧ is_Some (py_min_by predicted_arrivals ps).
Proof.
  intros Hl. assert (Hne : ps ≠ []) by (intros ->; done).
  destruct (py_max_by_is_Some predicted_arrivals ps Hne) as [peak Hpeak].
  exists peak. split; [done |]. split; [by rewrite py_max_by_keys, Hpeak |].
  by apply py_min_by_is_Some.
Qed.

(** X17: the status of a forecast request.  It is 200, 400 or 500.  It is 400
    exactly when a model is loaded and the request has no 'recent_data' or
    has one or two rows.  It is 200 exactly when a model is loaded, there
    are at least three rows, the artifact names only features the builder
    computes and the requested label, "90%" when none is given, is a key of
    its interval widths.  In particular an empty list of rows and an unknown
    label are answered 500. *)
Theorem forecast_icu_load_status (model_data : option ModelData)
    (data : option Payload) (now : Timestamp) :
  let status := snd (forecast_icu_load model_data data now) in
  (status = 200 ∨ status = 400 ∨ status = 500)
  ∧ (status = 400 ↔
       is_Some model_data
       ∧ (data ≫= recent_data_field = None
          ∨ ∃ rows, data ≫= recent_data_field = Some rows
                    ∧ (1 <= length rows < 3)%nat))
  ∧ (status = 200 ↔
       ∃ md rows, model_data = Some md
         ∧ data ≫= recent_data_field = Some rows
         ∧ (3 <= length rows)%nat
         ∧ feature_cols md ⊆ computed_features
         ∧ is_Some (prediction_intervals md !! requested_label data)).
Proof.
  cbn zeta. unfold forecast_icu_load.
  destruct model_data as [md |].
  2: { cbn. split; [auto |]. split; split; try done.
       - by intros [[? ?] _].
       - by intros (? & ? & ? & _). }
  destruct (predictions_of_request md data) as [[body status] | ps] eqn:E.
  - apply predictions_of_request_inl in E
      as [(-> & Hd & _) | [(-> & Hd & _) | [(-> & (rows & Hd & Hl) & _)
          | (-> & rows & e & Hd & Hl & He & _)]]]; cbn [snd].
    + split; [auto |]. split; split; try done.
      * intros _. split; [by eexists | by left].
      * intros (? & ? & _ & ? & _). congruence.
    + split; [auto |]. split; split; try done.
      * intros (_ & [? | (rows & ? & ?)]); [congruence |].
        assert (rows = []) by congruence. subst. simpl in *. lia.
      * intros (? & rows & _ & ? & ? & _).
        assert (rows = []) by congruence. subst. simpl in *. lia.
    + split; [auto |]. split; split; try done.
      * intros _. split; [by eexists | right; by exists rows].
      * intros (? & rows' & _ & ? & ? & _).
        assert (rows' = rows) by congruence. subst. lia.
    + split; [auto |]. split; split; try done.
      * intros (_ & [? | (rows' & ? & ?)]); [congruence |].
        assert (rows' = rows) by congruence. subst. lia.
      * intros (md' & rows' & [= <-] & ? & _ & Hsup & [width Hw]).
        assert (rows' = rows) by congruence. subst rows'.
        destruct (predict_next_hour_enhanced_ok (sort_values rows) md
                    (requested_label data) width) as (t & p & _ & Hp & _);
          [by rewrite sort_values_length | done | done |].
        destruct (predict_next_6_hours_first_Ok rows md _ p Hp)
          as (? & ? & _ & ? & _).
        congruence.
  - apply predictions_of_request_inr in E as (rows & Hd & Hl & Hps).
    apply predict_next_6_hours_Ok_inv in Hps as (_ & Hsup & Hw & Hlen & _).
    destruct (six_predictions_have_a_peak ps Hlen) as (peak & -> & -> & _).
    cbn [snd]. split; [auto |]. split; split; try done.
    + intros (_ & [? | (rows' & ? & ?)]); [congruence |].
      assert (rows' = rows) by congruence. subst. lia.
    + intros _. by exists md, rows.
Qed.

Lemma forecast_icu_load_status_witness :
  snd (forecast_icu_load (Some md_example) request_example 0) = 200.
Proof.
  apply (forecast_icu_load_status (Some md_example) request_example 0).
  exists md_example, w_example. split; [done |]. split; [done |].
  split; [simpl; lia |]. split; [exact md_example_supported | by eexists].
Defined.

(** X18: what never reaches the client.  The out-of-bounds error that the
    forecaster raises on fewer than three rows is never the body of a
    response: such requests are answered before the forecaster is called.
    Nor is the error of an empty [max()]. *)
Theorem forecast_icu_load_never_index_error (model_data : option ModelData)
    (data : option Payload) (now : Timestamp) :
  fst (forecast_icu_load model_data data now) ≠ ExceptionBody (Exn IndexError)
  ∧ fst (forecast_icu_load model_data data now)
    ≠ ExceptionBody ValueError_max_empty.
Proof.
  unfold forecast_icu_load.
  destruct model_data as [md |]; [| done].
  destruct (predictions_of_request md data) as [[body status] | ps] eqn:E.
  - apply predictions_of_request_inl in E
      as [(_ & _ & ->) | [(_ & _ & ->) | [(_ & _ & ->)
          | (_ & rows & e & _ & Hl & He & ->)]]]; cbn [fst]; try done.
    split; [| done]. intros [= ->].
    destruct (predict_next_hour_enhanced (sort_values rows) md (requested_label data))
      as [p | e] eqn:Hp.
    + destruct (predict_next_6_hours_first_Ok rows md _ p Hp)
        as (? & ? & _ & ? & _). congruence.
    + pose proof (predict_next_6_hours_first_Raise rows md _ e Hp) as H6.
      assert (e = IndexError) by congruence. subst e.
      apply predict_failure_cases in Hp as [[_ Hs] | [(? & ? & _) | [? _]]];
        [rewrite sort_values_length in Hs; lia | done | done].
  - apply predictions_of_request_inr in E as (rows & Hd & Hl & Hps).
    apply predict_next_6_hours_Ok_inv in Hps as (_ & _ & _ & Hlen & _).
    by destruct (six_predictions_have_a_peak ps Hlen) as (peak & -> & -> & _).
Qed.

Lemma Zsum_imap_predicted (ps : list Prediction) :
  Zsum (fe_predicted_arrivals <$> format_predictions ps) = total_arrivals ps.
Proof.
  unfold total_arrivals, format_predictions. f_equal.
  apply list_eq. intros i.
  rewrite !list_lookup_fmap, list_lookup_imap.
  by destruct (ps !! i).
Qed.

Lemma format_predictions_lookup (ps : list Prediction) (i : nat) e :
  format_predictions ps !! i = Some e →
  ∃ p, ps !! i = Some p
    ∧ fe_hour e = Z.of_nat i + 1
    ∧ fe_timestamp e = timestamp p
    ∧ fe_time_label e = strftime_I_M_p (timestamp p)
    ∧ fe_predicted_arrivals e = predicted_arrivals p
    ∧ fe_lower_bound e = lower_bound p
    ∧ fe_upper_bound e = upper_bound p.
Proof.
  unfold format_predictions. rewrite list_lookup_imap.
  destruct (ps !! i) as [p |]; [| done]. intros [= <-]. by exists p.
Qed.

(** X19: a successful answer.  It has six entries, numbered 1 to 6, one hour
    apart, each labelled with its own time; the total is the sum of their
    counts; the peak count is the largest of them; the peak hour is the label
    of the first entry that reaches it; and the total is at most six times
    the peak count. *)
Theorem forecast_icu_load_success (model_data : option ModelData)
    (data : option Payload) (now : Timestamp)
    (fd : list ForecastEntry) (s : Summary) (g : Timestamp) (status : Z) :
  forecast_icu_load model_data data now = (ForecastBody fd s g, status) →
  status = 200 ∧ g = now ∧ length fd = 6%nat
  ∧ (∀ (i : nat) e, fd !! i = Some e →
       fe_hour e = Z.of_nat i + 1
       ∧ fe_time_label e = strftime_I_M_p (fe_timestamp e)
       ∧ fe_predicted_arrivals e <= peak_count s)
  ∧ (∀ (i : nat) e e', fd !! i = Some e → fd !! S i = Some e' →
       fe_timestamp e' = fe_timestamp e + one_hour)
  ∧ total_predicted s = Zsum (fe_predicted_arrivals <$> fd)
  ∧ total_predicted s <= 6 * peak_count s
  ∧ ∃ (i : nat) e,
      fd !! i = Some e
      ∧ fe_predicted_arrivals e = peak_count s
      ∧ fe_time_label e = peak_hour s
      ∧ ∀ (j : nat) e', (j < i)%nat → fd !! j = Some e' →
          fe_predicted_arrivals e' < peak_count s.
Proof.
  unfold forecast_icu_load.
  destruct model_data as [md |]; [| discriminate].
  destruct (predictions_of_request md data) as [[body st] | ps] eqn:E.
  { apply predictions_of_request_inl in E
      as [(_ & _ & ->) | [(_ & _ & ->) | [(_ & _ & ->)
          | (_ & rows & e & _ & _ & _ & ->)]]]; discriminate. }
  apply predictions_of_request_inr in E as (rows & Hd & Hl & Hps).
  apply predict_next_6_hours_Ok_inv in Hps as (_ & _ & _ & Hlen & t & Hts).
  destruct (six_predictions_have_a_peak ps Hlen) as (peak & Hpeak & -> & _).
  rewrite Hpeak. intros [= <- <- <- <-].
  destruct (py_max_by_first_largest _ _ _ Hpeak) as (i & Hi & Hle & Hlt).
  cbn [total_predicted peak_hour peak_count].
  split; [done |]. split; [done |].
  split; [unfold format_predictions; by rewrite length_imap |].
  split.
  { intros j e He.
    apply format_predictions_lookup in He
      as (p & Hp & -> & -> & -> & -> & _).
    split; [done |]. split; [done |].
    apply Hle. by eapply list_elem_of_lookup_2. }
  split.
  { intros j e e' He He'.
    apply format_predictions_lookup in He as (p & Hp & _ & -> & _).
    apply format_predictions_lookup in He' as (p' & Hp' & _ & -> & _).
    rewrite (Hts _ _ Hp), (Hts _ _ Hp'). lia. }
  split; [by rewrite Zsum_imap_predicted |].
  split.
  { unfold total_arrivals.
    change 6 with (Z.of_nat 6). rewrite <- Hlen.
    rewrite <- (length_fmap predicted_arrivals ps).
    apply Zsum_le_max. intros z (p & -> & Hin)%list_elem_of_fmap. by apply Hle. }
  exists i. eexists. split.
  { unfold format_predictions. rewrite list_lookup_imap, Hi. reflexivity. }
  cbn. split; [done |]. split; [done |].
  intros j e' Hj He'.
  apply format_predictions_lookup in He' as (p & Hp & _ & _ & _ & -> & _).
  by apply (Hlt j).
Qed.

Lemma forecast_icu_load_success_witness :
  ∃ fd s, forecast_icu_load (Some md_example) request_example 0
          = (ForecastBody fd s 0, 200)
    ∧ length fd = 6%nat
    ∧ total_predicted s <= 6 * peak_count s.
Proof.
  destruct (forecast_icu_load (Some md_example) request_example 0)
    as [[| | fd s g |] status] eqn:E;
    try (vm_compute in E; discriminate E).
  destruct (forecast_icu_load_success _ _ _ _ _ _ _ E)
    as (-> & -> & Hl & _ & _ & _ & Ht & _).
  exists fd, s. split; [reflexivity |]. split; [exact Hl | exact Ht].
Defined.

(** ** The endpoint with insights *)

Section insights.
Context (llm : string → list Prediction → exception + string).

(** X20: the endpoint with insights is the plain endpoint followed by the
    language model.  Without a model it answers as the plain endpoint does;
    with a model and no API key it answers 500 whatever the request is; with
    both, it answers as the plain endpoint whenever that does not answer
    200, and otherwise returns the same forecast data and summary with the
    model's text, or 500 with the exception of the model.  The key and
    division checks of the explainer never fail here. *)
Theorem forecast_with_ai_insights_composition (model_data : option ModelData)
    (GROQ_API_KEY : string) (data : option Payload) (now : Timestamp) :
  let plain := forecast_icu_load model_data data now in
  let insights := forecast_with_ai_insights llm model_data GROQ_API_KEY data now in
  (model_data = None → insights = plain)
  ∧ (is_Some model_data → GROQ_API_KEY = "" →
       insights = (ErrorBody "GROQ_API_KEY not configured for AI insights", 500))
  ∧ (GROQ_API_KEY ≠ "" → snd plain ≠ 200 → insights = plain)
  ∧ (is_Some model_data → GROQ_API_KEY ≠ "" →
       ∀ fd s g, plain = (ForecastBody fd s g, 200) →
       ∃ predictions,
         length predictions = 6%nat
         ∧ fd = format_predictions predictions
         ∧ insights =
           match llm GROQ_API_KEY predictions with
           | inl e => (ExceptionBody e, 500)
           | inr text => (InsightsBody fd text s g, 200)
           end).
Proof.
  cbn zeta. unfold forecast_with_ai_insights, forecast_icu_load.
  destruct model_data as [md |].
  2: { split; [done |]. split; [by intros [? ?] |]. split; [done |].
       by intros [? ?]. }
  split; [done |]. split; [intros _ ->; done |].
  destruct (decide (GROQ_API_KEY = "")) as [-> | Hk].
  { split; [done |]. by intros _ ?. }
  destruct (predictions_of_request md data) as [[body status] | ps] eqn:E.
  { split; [done |]. intros _ _ fd s g [= -> ->].
    apply predictions_of_request_inl in E
      as [(? & _) | [(? & _) | [(? & _) | (? & _)]]]; done. }
  apply predictions_of_request_inr in E as (rows & Hd & Hl & Hps).
  apply predict_next_6_hours_Ok_inv in Hps as (_ & _ & _ & Hlen & _).
  destruct (six_predictions_have_a_peak ps Hlen) as (peak & Hpeak & Hcount & [low Hlow]).
  rewrite Hpeak, Hcount. cbn [snd].
  split; [done |].
  intros _ _ fd s g [= <- <- <-]. exists ps.
  split; [done |]. split; [done |].
  unfold explain_6_hour_forecast.
  rewrite decide_False by done.
  rewrite decide_False by (rewrite Hlen; done).
  rewrite Hpeak, Hlow.
  by destruct (llm GROQ_API_KEY ps).
Qed.

End insights.

Lemma forecast_with_ai_insights_composition_witness :
  ∃ fd s,
    forecast_icu_load (Some md_example) request_example 0
      = (ForecastBody fd s 0, 200)
    ∧ forecast_with_ai_insights llm_example (Some md_example) "key"
        request_example 0
      = (InsightsBody fd "FORECAST: steady." s 0, 200).
Proof.
  destruct (forecast_icu_load (Some md_example) request_example 0)
    as [[| | fd s g |] status] eqn:E;
    try (vm_compute in E; discriminate E).
  assert (Hg : g = 0 ∧ status = 200).
  { vm_compute in E. by injection E as _ _ <- <-. }
  destruct Hg as [-> ->].
  destruct (forecast_with_ai_insights_composition llm_example
              (Some md_example) "key" request_example 0)
    as (_ & _ & _ & H).
  destruct (H ltac:(by eexists) ltac:(discriminate) fd s 0 E)
    as (ps & _ & _ & Hi).
  exists fd, s. split; [reflexivity |]. exact Hi.
Defined.
